(** * Contacts service: authorization and validation of contact requests

    A shallow embedding of [src/contacts/contacts.py]: the two route
    handlers [get_contacts] and [add_contact], the validator
    [_validate_new_contact] and the business-rule check
    [_check_contact_allowed], together with the Python notions they rely on
    (JSON values, truthiness, [==], [str.split], [re.match], exceptions).
    Strings are sequences of bytes, a text being its UTF-8 encoding.
    Logging and tracing, which no answer depends on, are left out. *)

From Stdlib Require Import List String Ascii ZArith Bool Arith Lia.
Import ListNotations.
Open Scope string_scope.

(** ** Python values *)

(** The values a decoded JSON document or a decoded claim set can hold.
    JSON numbers are kept as integers.  A [VDict] is an insertion-ordered
    association list whose keys are distinct, as a Python [dict] is. *)
#[warnings="-register-all"]
Inductive pyval : Type :=
| VNone
| VBool (b : bool)
| VInt (z : Z)
| VStr (s : string)
| VList (l : list pyval)
| VDict (d : list (string * pyval)).

Definition dict := list (string * pyval).

(** [d.get(k)]: the binding of [k], if any. *)
Fixpoint dict_get {A : Type} (d : list (string * A)) (k : string) : option A :=
  match d with
  | [] => None
  | (k', v) :: d' => if String.eqb k' k then Some v else dict_get d' k
  end.

(** [k in d]. *)
Definition dict_mem {A : Type} (d : list (string * A)) (k : string) : bool :=
  match dict_get d k with Some _ => true | None => false end.

(** [bool(v)]: Python truthiness. *)
Definition truthy (v : pyval) : bool :=
  match v with
  | VNone => false
  | VBool b => b
  | VInt z => negb (Z.eqb z 0)
  | VStr s => negb (String.eqb s "")
  | VList l => match l with [] => false | _ => true end
  | VDict d => match d with [] => false | _ => true end
  end.

(** [a == b].  [bool] is a subclass of [int], so [True == 1]; values of
    unrelated types are unequal; dictionaries compare irrespective of the
    order of their keys. *)
Fixpoint py_eq (a b : pyval) {struct a} : bool :=
  match a, b with
  | VNone, VNone => true
  | VBool x, VBool y => Bool.eqb x y
  | VBool x, VInt y => Z.eqb (Z.b2z x) y
  | VInt x, VBool y => Z.eqb x (Z.b2z y)
  | VInt x, VInt y => Z.eqb x y
  | VStr x, VStr y => String.eqb x y
  | VList xs, VList ys =>
      (fix eq_items (xs ys : list pyval) {struct xs} : bool :=
         match xs, ys with
         | [], [] => true
         | x :: xs', y :: ys' => py_eq x y && eq_items xs' ys'
         | _, _ => false
         end) xs ys
  | VDict xs, VDict ys =>
      Nat.eqb (List.length xs) (List.length ys) &&
      (fix eq_entries (xs : list (string * pyval)) {struct xs} : bool :=
         match xs with
         | [] => true
         | (k, v) :: xs' =>
             match dict_get ys k with
             | Some w => py_eq v w && eq_entries xs'
             | None => false
             end
         end) xs
  | _, _ => false
  end.

(** [v is None]. *)
Definition is_none (v : pyval) : bool :=
  match v with VNone => true | _ => false end.

(** An optional string ([os.environ.get], [request.headers.get]) as a
    value: [None] when it is absent. *)
Definition of_optional (o : option string) : pyval :=
  match o with Some s => VStr s | None => VNone end.

(** ** Exceptions *)

(** The subclasses of [sqlalchemy.exc.SQLAlchemyError] that matter here. *)
Inductive sqlalchemy_error : Type :=
| IntegrityError
| OperationalError
| OtherSQLAlchemyError.

Inductive exn : Type :=
| PermissionError
| InvalidTokenError
| UserWarning (msg : string)
| ValueError (msg : string)
| SQLAlchemyError (e : sqlalchemy_error)
| KeyError (key : string)
| TypeError
| AttributeError
| BadRequest.

Inductive result (A : Type) : Type :=
| Return (a : A)
| Raise (e : exn).
Arguments Return {A} a.
Arguments Raise {A} e.

Definition bind {A B : Type} (m : result A) (f : A -> result B) : result B :=
  match m with
  | Return a => f a
  | Raise e => Raise e
  end.

Notation "x <- m ;; k" := (bind m (fun x => k))
  (at level 61, m at next level, right associativity).
Notation "m ;; k" := (bind m (fun _ => k))
  (at level 61, right associativity).

(** [if c: raise e]. *)
Definition raise_if (c : bool) (e : exn) : result unit :=
  if c then Raise e else Return tt.

(** [d[k]]: raises [KeyError] on a missing key. *)
Definition getitem (d : dict) (k : string) : result pyval :=
  match dict_get d k with
  | Some v => Return v
  | None => Raise (KeyError k)
  end.

(** ** Regular expressions

    The fragment of Python's [re] syntax the service uses: a sequence of
    anchors and bounded repetitions of a character class. *)

Inductive re_item : Type :=
| BeginA                                     (* \A *)
| Caret                                      (* ^  *)
| Class (p : ascii -> bool) (lo hi : nat)    (* [...]{lo,hi} *)
| EndZ                                       (* \Z *)
| Dollar.                                    (* $  *)

Definition regex := list re_item.

Definition LF : ascii := ascii_of_nat 10.

Definition is_empty (s : string) : bool :=
  match s with EmptyString => true | _ => false end.

(** Where [$] matches without [re.MULTILINE]: at the end of the string and
    just before a newline that ends the string. *)
Definition at_dollar (s : string) : bool :=
  match s with
  | EmptyString => true
  | String c EmptyString => Ascii.eqb c LF
  | _ => false
  end.

(** Between [lo] and [hi] characters of class [p], then the rest of the
    pattern [k]; longer repetitions are tried first. *)
Fixpoint class_rep (p : ascii -> bool) (lo hi : nat) (pos : nat) (s : string)
    (k : nat -> string -> bool) : bool :=
  match hi with
  | O => Nat.eqb lo 0 && k pos s
  | S hi' =>
      match s with
      | String c s' =>
          (p c && class_rep p (Nat.pred lo) hi' (S pos) s' k)
          || (Nat.eqb lo 0 && k pos s)
      | EmptyString => Nat.eqb lo 0 && k pos s
      end
  end.

(** The pattern [r] matches at offset [pos], [s] being what is left of the
    subject.  A pattern that is used up has matched. *)
Fixpoint match_items (r : regex) (pos : nat) (s : string) : bool :=
  match r with
  | [] => true
  | BeginA :: r' => Nat.eqb pos 0 && match_items r' pos s
  | Caret :: r' => Nat.eqb pos 0 && match_items r' pos s
  | Class p lo hi :: r' => class_rep p lo hi pos s (match_items r')
  | EndZ :: r' => is_empty s && match_items r' pos s
  | Dollar :: r' => at_dollar s && match_items r' pos s
  end.

(** [re.match(r, v)] as a truth value: the pattern is tried at the start of
    the subject only; a subject that is not a string raises [TypeError]. *)
Definition re_match (r : regex) (v : pyval) : result bool :=
  match v with
  | VStr s => Return (match_items r 0 s)
  | _ => Raise TypeError
  end.

Definition in_range (lo hi c : ascii) : bool :=
  (Ascii.leb lo c && Ascii.leb c hi)%bool.

Definition is_digit (c : ascii) : bool := in_range "0" "9" c.
Definition is_alnum (c : ascii) : bool :=
  in_range "0" "9" c || in_range "a" "z" c || in_range "A" "Z" c.
Definition is_alnum_space (c : ascii) : bool :=
  is_alnum c || Ascii.eqb c " ".

(** [r"\A[0-9]{10}\Z"] *)
Definition ACCOUNT_NUM_RE : regex := [BeginA; Class is_digit 10 10; EndZ].
(** [r"\A[0-9]{9}\Z"] *)
Definition ROUTING_NUM_RE : regex := [BeginA; Class is_digit 9 9; EndZ].
(** [r"^[0-9a-zA-Z][0-9a-zA-Z ]{0,29}$"] *)
Definition LABEL_RE : regex :=
  [Caret; Class is_alnum 1 1; Class is_alnum_space 0 29; Dollar].

(** ** The validator *)

Definition fields : list string :=
  ["label"; "account_num"; "routing_num"; "is_external"].

(** [v is None or not re.match(r, v)] *)
Definition none_or_no_match (r : regex) (v : pyval) : result bool :=
  if is_none v then Return true else (m <- re_match r v ;; Return (negb m)).

(** [_validate_new_contact(req)], [local_routing] being
    [app.config["LOCAL_ROUTING"]]. *)
Definition _validate_new_contact (local_routing : option string) (req : dict)
    : result unit :=
  raise_if (existsb (fun f => negb (dict_mem req f)) fields)
           (UserWarning "missing required field(s)") ;;
  account_num <- getitem req "account_num" ;;
  bad <- none_or_no_match ACCOUNT_NUM_RE account_num ;;
  raise_if bad (UserWarning "invalid account number") ;;
  routing_num <- getitem req "routing_num" ;;
  bad <- none_or_no_match ROUTING_NUM_RE routing_num ;;
  raise_if bad (UserWarning "invalid routing number") ;;
  is_external <- getitem req "is_external" ;;
  local <- (if truthy is_external
            then (routing_num <- getitem req "routing_num" ;;
                  Return (py_eq routing_num (of_optional local_routing)))
            else Return false) ;;
  raise_if local (UserWarning "invalid routing number") ;;
  label <- getitem req "label" ;;
  bad <- none_or_no_match LABEL_RE label ;;
  raise_if bad (UserWarning "invalid account label").

(** ** The contact store *)

(** A stored contact: the dictionary [contact_data] that [add_contact]
    builds and the rows [contacts_db.get_contacts] returns. *)
Record contact : Type := {
  c_username : string;
  c_label : pyval;
  c_account_num : pyval;
  c_routing_num : pyval;
  c_is_external : pyval
}.

(** The interface of [db.ContactsDb] the handlers use.  A query leaves the
    store as it is; an insertion yields the store after it and, when it
    failed, the error it raised. *)
Class ContactsDb (DB : Type) : Type := {
  db_get_contacts : DB -> string -> sqlalchemy_error + list contact;
  db_add_contact : DB -> contact -> DB * option sqlalchemy_error
}.

Inductive db_call : Type :=
| CallGet (username : string)
| CallAdd (c : contact).

(** What a handler runs in: the store and the calls made to it so far. *)
Record world (DB : Type) : Type := {
  store : DB;
  calls : list db_call
}.
Arguments store {DB} w.
Arguments calls {DB} w.

Definition prog (DB A : Type) : Type := world DB -> result A * world DB.

Definition bindP {DB A B : Type} (m : prog DB A) (f : A -> prog DB B)
    : prog DB B :=
  fun w =>
    match m w with
    | (Return a, w') => f a w'
    | (Raise e, w') => (Raise e, w')
    end.

Definition lift {DB A : Type} (m : result A) : prog DB A := fun w => (m, w).

Notation "x <~ m ;; k" := (bindP m (fun x => k))
  (at level 61, m at next level, right associativity).
Notation "m ;;; k" := (bindP m (fun _ => k))
  (at level 61, right associativity).

(** [contacts_db.get_contacts(username)] *)
Definition contacts_db_get_contacts {DB : Type} `{ContactsDb DB}
    (username : string) : prog DB (list contact) :=
  fun w =>
    let w' := {| store := store w; calls := calls w ++ [CallGet username] |} in
    match db_get_contacts (store w) username with
    | inl e => (Raise (SQLAlchemyError e), w')
    | inr cs => (Return cs, w')
    end.

(** [contacts_db.add_contact(contact_data)] *)
Definition contacts_db_add_contact {DB : Type} `{ContactsDb DB}
    (c : contact) : prog DB unit :=
  fun w =>
    let (db', err) := db_add_contact (store w) c in
    let w' := {| store := db'; calls := calls w ++ [CallAdd c] |} in
    match err with
    | Some e => (Raise (SQLAlchemyError e), w')
    | None => (Return tt, w')
    end.

(** ** The application *)

(** What [create_app] closes over: [jwt_decode token] is
    [jwt.decode(token, key=app.config["PUBLIC_KEY"], algorithms="RS256")],
    [None] when it raises an [InvalidTokenError], the public key being
    configured; [bleach_clean] is [bleach.clean]; [LOCAL_ROUTING] is
    [app.config["LOCAL_ROUTING"]], [None] when the environment does not
    set it. *)
Record app : Type := {
  jwt_decode : string -> option dict;
  bleach_clean : string -> string;
  LOCAL_ROUTING : option string
}.

(** What [request.get_json()] finds: the parsed document ([None] when the
    request holds no JSON), or a body that is not valid JSON. *)
Inductive json_body : Type :=
| Parsed (v : pyval)
| NotJson.

Record request : Type := {
  authorization : option string;   (* request.headers.get("Authorization") *)
  get_json : json_body             (* the body request.get_json() reads *)
}.

(** [request.get_json()]: a body that is not valid JSON raises werkzeug's
    [BadRequest]. *)
Definition read_json (b : json_body) : result pyval :=
  match b with
  | Parsed v => Return v
  | NotJson => Raise BadRequest
  end.

Inductive body : Type :=
| Text (s : string)
| Json (v : pyval)
| JsonContacts (l : list contact).

(** A handler answers with a status and a body, or lets an exception
    escape to the framework. *)
Inductive outcome : Type :=
| Response (status : nat) (b : body)
| Unhandled (e : exn).

(** [s.split(sep)] for a separator of one character. *)
Fixpoint split (sep : ascii) (s : string) : list string :=
  match s with
  | EmptyString => [EmptyString]
  | String c s' =>
      if Ascii.eqb c sep then EmptyString :: split sep s'
      else match split sep s' with
           | w :: ws => String c w :: ws
           | [] => [String c EmptyString]
           end
  end.

(** The token both handlers take from the header:
    [auth_header.split(" ")[-1] if auth_header else ""]. *)
Definition bearer_token (auth_header : option string) : string :=
  if truthy (of_optional auth_header)
  then match auth_header with
       | Some h => last (split " " h) ""
       | None => ""
       end
  else "".

(** [jwt.decode(...)] followed by the check of the path against the
    [user] claim; both handlers start with it. *)
Definition authenticate (a : app) (username : string) (rq : request)
    : result dict :=
  auth_payload <- match jwt_decode a (bearer_token (authorization rq)) with
                  | Some p => Return p
                  | None => Raise InvalidTokenError
                  end ;;
  user <- getitem auth_payload "user" ;;
  raise_if (negb (py_eq (VStr username) user)) PermissionError ;;
  Return auth_payload.

(** The [try] block of [get_contacts]. *)
Definition get_contacts_try {DB : Type} `{ContactsDb DB} (a : app)
    (username : string) (rq : request) : prog DB (nat * body) :=
  _ <~ lift (authenticate a username rq) ;;
  contacts_list <~ contacts_db_get_contacts username ;;
  lift (Return (200, JsonContacts contacts_list)).

(** The [except] clauses of [get_contacts]; an exception none of them
    names escapes. *)
Definition get_contacts_except (e : exn) : outcome :=
  match e with
  | PermissionError | InvalidTokenError =>
      Response 401 (Text "authentication denied")
  | SQLAlchemyError _ =>
      Response 500 (Text "failed to retrieve contacts list")
  | _ => Unhandled e
  end.

(** [GET /contacts/<username>] *)
Definition get_contacts {DB : Type} `{ContactsDb DB} (a : app)
    (username : string) (rq : request) (w : world DB) : outcome * world DB :=
  match get_contacts_try a username rq w with
  | (Return (status, b), w') => (Response status b, w')
  | (Raise e, w') => (get_contacts_except e, w')
  end.

(** [bleach.clean(v) if isinstance(v, str) else v] *)
Definition sanitize (a : app) (v : pyval) : pyval :=
  match v with
  | VStr s => VStr (bleach_clean a s)
  | _ => v
  end.

(** [x.items()]: only a dictionary has the method. *)
Definition items (x : pyval) : result dict :=
  match x with
  | VDict d => Return d
  | _ => Raise AttributeError
  end.

(** [request.get_json().items()] *)
Definition body_items (rq : request) : result dict :=
  payload <- read_json (get_json rq) ;;
  items payload.

(** The loop of [_check_contact_allowed] over the stored contacts. *)
Fixpoint check_each (contacts : list contact) (req : dict) : result unit :=
  match contacts with
  | [] => Return tt
  | contact :: rest =>
      account_num <- getitem req "account_num" ;;
      same <- (if py_eq (c_account_num contact) account_num
               then (routing_num <- getitem req "routing_num" ;;
                     Return (py_eq (c_routing_num contact) routing_num))
               else Return false) ;;
      raise_if same (ValueError "account already exists as a contact") ;;
      label <- getitem req "label" ;;
      raise_if (py_eq (c_label contact) label)
               (ValueError "contact already exists with that label") ;;
      check_each rest req
  end.

(** [_check_contact_allowed(username, accountid, req)] *)
Definition _check_contact_allowed {DB : Type} `{ContactsDb DB} (a : app)
    (username : string) (accountid : pyval) (req : dict) : prog DB unit :=
  lift (account_num <- getitem req "account_num" ;;
        self <- (if py_eq account_num accountid
                 then (routing_num <- getitem req "routing_num" ;;
                       Return (py_eq routing_num
                                     (of_optional (LOCAL_ROUTING a))))
                 else Return false) ;;
        raise_if self (ValueError "may not add yourself to contacts")) ;;;
  contacts <~ contacts_db_get_contacts username ;;
  lift (check_each contacts req).

(** The request with every string value cleaned:
    [{k: (bleach.clean(v) if isinstance(v, str) else v) for k, v in ...}]. *)
Definition sanitized (a : app) (kvs : dict) : dict :=
  map (fun kv => (fst kv, sanitize a (snd kv))) kvs.

(** The [try] block of [add_contact]. *)
Definition add_contact_try {DB : Type} `{ContactsDb DB} (a : app)
    (username : string) (rq : request) : prog DB (nat * body) :=
  auth_payload <~ lift (authenticate a username rq) ;;
  kvs <~ lift (body_items rq) ;;
  let req := sanitized a kvs in
  lift (_validate_new_contact (LOCAL_ROUTING a) req) ;;;
  accountid <~ lift (getitem auth_payload "acct") ;;
  _check_contact_allowed a username accountid req ;;;
  label <~ lift (getitem req "label") ;;
  account_num <~ lift (getitem req "account_num") ;;
  routing_num <~ lift (getitem req "routing_num") ;;
  is_external <~ lift (getitem req "is_external") ;;
  let contact_data :=
    {| c_username := username;
       c_label := label;
       c_account_num := account_num;
       c_routing_num := routing_num;
       c_is_external := is_external |} in
  contacts_db_add_contact contact_data ;;;
  lift (Return (201, Json (VDict []))).

(** The [except] clauses of [add_contact]; an exception none of them
    names escapes. *)
Definition add_contact_except (e : exn) : outcome :=
  match e with
  | PermissionError | InvalidTokenError =>
      Response 401 (Text "authentication denied")
  | UserWarning msg => Response 400 (Text msg)
  | ValueError msg => Response 409 (Text msg)
  | SQLAlchemyError _ => Response 500 (Text "failed to add contact")
  | _ => Unhandled e
  end.

(** [POST /contacts/<username>] *)
Definition add_contact {DB : Type} `{ContactsDb DB} (a : app)
    (username : string) (rq : request) (w : world DB) : outcome * world DB :=
  match add_contact_try a username rq w with
  | (Return (status, b), w') => (Response status b, w')
  | (Raise e, w') => (add_contact_except e, w')
  end.

(** ** A list-backed store *)

(** Modelled from the spec: the Contact Store ([db.py], which is not among
    the sources).  "[get_contacts(username) -> ordered sequence of Contact];
    [add_contact(Contact) -> success or storage error]"; contacts are
    "queried and appended to".  [get_error] and [add_error] say whether the
    next query or insertion meets a storage error. *)
Record list_db : Type := {
  rows : list contact;
  get_error : option sqlalchemy_error;
  add_error : option sqlalchemy_error
}.

#[export] Instance list_db_ContactsDb : ContactsDb list_db := {
  db_get_contacts db username :=
    match get_error db with
    | Some e => inl e
    | None => inr (filter (fun c => String.eqb (c_username c) username) (rows db))
    end;
  db_add_contact db c :=
    match add_error db with
    | Some e => (db, Some e)
    | None => ({| rows := rows db ++ [c];
                  get_error := get_error db;
                  add_error := add_error db |}, None)
    end
}.

Definition empty_db : list_db :=
  {| rows := []; get_error := None; add_error := None |}.

Definition fresh {DB : Type} (db : DB) : world DB :=
  {| store := db; calls := [] |}.

(** ** A sample application *)

(** Three tokens verify; every other string, the empty one included, is
    rejected. *)
Definition sample_decode (token : string) : option dict :=
  if String.eqb token "alice.jwt"
  then Some [("user", VStr "alice"); ("acct", VStr "1234567890")]
  else if String.eqb token "alice-no-acct.jwt"
  then Some [("user", VStr "alice")]
  else if String.eqb token "no-user.jwt"
  then Some [("acct", VStr "1234567890")]
  else None.

(** The sample requests below carry text without markup, which
    [bleach.clean] returns as it is. *)
Definition sample_app : app :=
  {| jwt_decode := sample_decode;
     bleach_clean := fun s => s;
     LOCAL_ROUTING := Some "123456789" |}.

Definition bob : dict :=
  [("account_num", VStr "0000000001"); ("routing_num", VStr "111111111");
   ("label", VStr "Bob S"); ("is_external", VBool true)].

Definition post (token : string) (payload : pyval) : request :=
  {| authorization := Some ("Bearer " ++ token);
     get_json := Parsed payload |}.

(** ** The claims' words *)

Fixpoint string_forall (p : ascii -> bool) (s : string) : bool :=
  match s with
  | EmptyString => true
  | String c s' => p c && string_forall p s'
  end.

(** At most [hi] characters, all of class [p]. *)
Definition upto (p : ascii -> bool) (hi : nat) (s : string) : bool :=
  Nat.leb (String.length s) hi && string_forall p s.

(** "exactly [n] digits" *)
Definition exactly_digits (n : nat) (s : string) : bool :=
  Nat.eqb (String.length s) n && string_forall is_digit s.

(** A label of the data model: 1 to 30 characters, alphanumeric and
    spaces, not starting with a space. *)
Definition label_ok (s : string) : bool :=
  match s with
  | EmptyString => false
  | String c s' =>
      is_alnum c && Nat.leb (String.length s') 29
      && string_forall is_alnum_space s'
  end.

(** [s] without its final newline, when it ends with one. *)
Fixpoint chomp (s : string) : option string :=
  match s with
  | EmptyString => None
  | String c EmptyString => if Ascii.eqb c LF then Some EmptyString else None
  | String c s' =>
      match chomp s' with
      | Some t => Some (String c t)
      | None => None
      end
  end.

(** A value that is a string satisfying [p]. *)
Definition str_sat (p : string -> bool) (v : pyval) : bool :=
  match v with VStr s => p s | _ => false end.

(** The five rules of the validator in the order the specification gives
    them, on the fields of the record. *)
Definition validate_rules (local_routing : option string) (req : dict)
    : result unit :=
  match dict_get req "label", dict_get req "account_num",
        dict_get req "routing_num", dict_get req "is_external" with
  | Some label, Some account_num, Some routing_num, Some is_external =>
      if negb (str_sat (exactly_digits 10) account_num)
      then Raise (UserWarning "invalid account number")
      else if negb (str_sat (exactly_digits 9) routing_num)
      then Raise (UserWarning "invalid routing number")
      else if truthy is_external
              && py_eq routing_num (of_optional local_routing)
      then Raise (UserWarning "invalid routing number")
      else if negb (str_sat label_ok label)
      then Raise (UserWarning "invalid account label")
      else Return tt
  | _, _, _, _ => Raise (UserWarning "missing required field(s)")
  end.

Definition pair_match (account_num routing_num : pyval) (c : contact) : bool :=
  py_eq (c_account_num c) account_num && py_eq (c_routing_num c) routing_num.

Definition label_match (label : pyval) (c : contact) : bool :=
  py_eq (c_label c) label.

(** The business rules as the specification words them: the self-reference
    first, then the first stored contact that shares the pair or the label
    decides. *)
Definition allowed_rules (local_routing : option string) (acct : pyval)
    (account_num routing_num label : pyval) (contacts : list contact)
    : result unit :=
  if py_eq account_num acct && py_eq routing_num (of_optional local_routing)
  then Raise (ValueError "may not add yourself to contacts")
  else match find (fun c => pair_match account_num routing_num c
                            || label_match label c) contacts with
       | Some c =>
           if pair_match account_num routing_num c
           then Raise (ValueError "account already exists as a contact")
           else Raise (ValueError "contact already exists with that label")
       | None => Return tt
       end.

(** Python's whitespace, as [str.split()] without a separator sees it. *)
Definition is_space (c : ascii) : bool :=
  let n := nat_of_ascii c in
  Nat.eqb n 32 || (Nat.leb 9 n && Nat.leb n 13) || (Nat.leb 28 n && Nat.leb n 31).

(** [s.split()]: the maximal runs of characters that are not whitespace. *)
Fixpoint words (s : string) : list string :=
  match s with
  | EmptyString => []
  | String c s' =>
      if is_space c then words s'
      else match s' with
           | EmptyString => [String c EmptyString]
           | String c' _ =>
               if is_space c' then String c EmptyString :: words s'
               else match words s' with
                    | w :: ws => String c w :: ws
                    | [] => [String c EmptyString]
                    end
           end
  end.

(** "the last whitespace-separated segment" *)
Definition last_whitespace_segment (s : string) : string :=
  last (words s) "".

Definition TAB : ascii := ascii_of_nat 9.

Definition no_space (s : string) : bool :=
  string_forall (fun c => negb (Ascii.eqb c " ")) s.

(** ** The runs of [add_contact], stage by stage *)

(** The world after the calls [l] that left the store [db]. *)
Definition after {DB : Type} (w : world DB) (db : DB) (l : list db_call)
    : world DB :=
  {| store := db; calls := calls w ++ l |}.

(** The stages a POST goes through and what it answers when it stops at
    each. *)
Inductive add_contact_run {DB : Type} `{ContactsDb DB} (a : app)
    (username : string) (rq : request) (w : world DB)
    : outcome * world DB -> Prop :=
| run_denied e :
    authenticate a username rq = Raise e ->
    e = InvalidTokenError \/ e = PermissionError ->
    add_contact_run a username rq w
      (Response 401 (Text "authentication denied"), w)
| run_no_user :
    authenticate a username rq = Raise (KeyError "user") ->
    add_contact_run a username rq w (Unhandled (KeyError "user"), w)
| run_bad_request claims :
    authenticate a username rq = Return claims ->
    body_items rq = Raise BadRequest ->
    add_contact_run a username rq w (Unhandled BadRequest, w)
| run_not_object claims :
    authenticate a username rq = Return claims ->
    body_items rq = Raise AttributeError ->
    add_contact_run a username rq w (Unhandled AttributeError, w)
| run_invalid claims kvs msg :
    authenticate a username rq = Return claims ->
    body_items rq = Return kvs ->
    _validate_new_contact (LOCAL_ROUTING a) (sanitized a kvs)
      = Raise (UserWarning msg) ->
    add_contact_run a username rq w (Response 400 (Text msg), w)
| run_type_error claims kvs :
    authenticate a username rq = Return claims ->
    body_items rq = Return kvs ->
    _validate_new_contact (LOCAL_ROUTING a) (sanitized a kvs)
      = Raise TypeError ->
    add_contact_run a username rq w (Unhandled TypeError, w)
| run_no_acct claims kvs :
    authenticate a username rq = Return claims ->
    body_items rq = Return kvs ->
    _validate_new_contact (LOCAL_ROUTING a) (sanitized a kvs) = Return tt ->
    dict_get claims "acct" = None ->
    add_contact_run a username rq w (Unhandled (KeyError "acct"), w)
| run_self_reference claims kvs acct :
    authenticate a username rq = Return claims ->
    body_items rq = Return kvs ->
    _validate_new_contact (LOCAL_ROUTING a) (sanitized a kvs) = Return tt ->
    dict_get claims "acct" = Some acct ->
    _check_contact_allowed a username acct (sanitized a kvs) w
      = (Raise (ValueError "may not add yourself to contacts"), w) ->
    add_contact_run a username rq w
      (Response 409 (Text "may not add yourself to contacts"), w)
| run_query_failed claims kvs acct e :
    authenticate a username rq = Return claims ->
    body_items rq = Return kvs ->
    _validate_new_contact (LOCAL_ROUTING a) (sanitized a kvs) = Return tt ->
    dict_get claims "acct" = Some acct ->
    db_get_contacts (store w) username = inl e ->
    _check_contact_allowed a username acct (sanitized a kvs) w
      = (Raise (SQLAlchemyError e), after w (store w) [CallGet username]) ->
    add_contact_run a username rq w
      (Response 500 (Text "failed to add contact"),
       after w (store w) [CallGet username])
| run_conflict claims kvs acct msg :
    authenticate a username rq = Return claims ->
    body_items rq = Return kvs ->
    _validate_new_contact (LOCAL_ROUTING a) (sanitized a kvs) = Return tt ->
    dict_get claims "acct" = Some acct ->
    _check_contact_allowed a username acct (sanitized a kvs) w
      = (Raise (ValueError msg), after w (store w) [CallGet username]) ->
    add_contact_run a username rq w
      (Response 409 (Text msg), after w (store w) [CallGet username])
| run_insert_failed claims kvs acct label account_num routing_num is_external
    db' e :
    authenticate a username rq = Return claims ->
    body_items rq = Return kvs ->
    _validate_new_contact (LOCAL_ROUTING a) (sanitized a kvs) = Return tt ->
    dict_get claims "acct" = Some acct ->
    _check_contact_allowed a username acct (sanitized a kvs) w
      = (Return tt, after w (store w) [CallGet username]) ->
    dict_get (sanitized a kvs) "label" = Some label ->
    dict_get (sanitized a kvs) "account_num" = Some account_num ->
    dict_get (sanitized a kvs) "routing_num" = Some routing_num ->
    dict_get (sanitized a kvs) "is_external" = Some is_external ->
    let c := {| c_username := username; c_label := label;
                c_account_num := account_num; c_routing_num := routing_num;
                c_is_external := is_external |} in
    db_add_contact (store w) c = (db', Some e) ->
    add_contact_run a username rq w
      (Response 500 (Text "failed to add contact"),
       after w db' [CallGet username; CallAdd c])
| run_added claims kvs acct label account_num routing_num is_external db' :
    authenticate a username rq = Return claims ->
    body_items rq = Return kvs ->
    _validate_new_contact (LOCAL_ROUTING a) (sanitized a kvs) = Return tt ->
    dict_get claims "acct" = Some acct ->
    _check_contact_allowed a username acct (sanitized a kvs) w
      = (Return tt, after w (store w) [CallGet username]) ->
    dict_get (sanitized a kvs) "label" = Some label ->
    dict_get (sanitized a kvs) "account_num" = Some account_num ->
    dict_get (sanitized a kvs) "routing_num" = Some routing_num ->
    dict_get (sanitized a kvs) "is_external" = Some is_external ->
    let c := {| c_username := username; c_label := label;
                c_account_num := account_num; c_routing_num := routing_num;
                c_is_external := is_external |} in
    db_add_contact (store w) c = (db', None) ->
    add_contact_run a username rq w
      (Response 201 (Json (VDict [])),
       after w db' [CallGet username; CallAdd c]).

(** The contact [c] is the record [req] with its owner. *)
Definition contact_of (username : string) (req : dict) (c : contact) : Prop :=
  c_username c = username
  /\ dict_get req "label" = Some (c_label c)
  /\ dict_get req "account_num" = Some (c_account_num c)
  /\ dict_get req "routing_num" = Some (c_routing_num c)
  /\ dict_get req "is_external" = Some (c_is_external c).

Definition carol : contact :=
  {| c_username := "alice"; c_label := VStr "Carol";
     c_account_num := VStr "0000000001"; c_routing_num := VStr "111111111";
     c_is_external := VBool true |}.

(** A store whose next insertion meets a uniqueness violation, as after a
    concurrent insertion of the same contact. *)
Definition racing_db : list_db :=
  {| rows := []; get_error := None; add_error := Some IntegrityError |}.

Definition bob_contact : contact :=
  {| c_username := "alice"; c_label := VStr "Bob S";
     c_account_num := VStr "0000000001"; c_routing_num := VStr "111111111";
     c_is_external := VBool true |}.

Definition dan_body : dict :=
  [("account_num", VStr "0000000002"); ("routing_num", VStr "111111111");
   ("label", VStr "Dan"); ("is_external", VBool true)].

Definition dan : contact :=
  {| c_username := "alice"; c_label := VStr "Dan";
     c_account_num := VStr "0000000002"; c_routing_num := VStr "111111111";
     c_is_external := VBool true |}.

(** The texts the validator and the business rules raise. *)
Definition validation_messages : list string :=
  ["missing required field(s)"; "invalid account number";
   "invalid routing number"; "invalid account label"].

Definition conflict_messages : list string :=
  ["may not add yourself to contacts"; "account already exists as a contact";
   "contact already exists with that label"].

(** The sample application started without [LOCAL_ROUTING_NUM]. *)
Definition unconfigured_app : app :=
  {| jwt_decode := sample_decode;
     bleach_clean := fun s => s;
     LOCAL_ROUTING := None |}.

(** [sep.join(l)] *)
Fixpoint join (sep : ascii) (l : list string) : string :=
  match l with
  | [] => ""
  | [w] => w
  | w :: ws => w ++ String sep (join sep ws)
  end.

(** How a value stands to a rule on text: it meets it, it fails it (null
    fails every rule), or it is no text at all. *)
Inductive verdict : Type :=
| Meets
| Fails
| NotText.

Definition judge (p : string -> bool) (v : pyval) : verdict :=
  match v with
  | VNone => Fails
  | VStr s => if p s then Meets else Fails
  | _ => NotText
  end.

(** The five rules in order, as the amended claim words them: a value
    that reaches its pattern and is neither null nor a string raises
    [TypeError]. *)
Definition validate_rules_typed (local_routing : option string) (req : dict)
    : result unit :=
  match dict_get req "label", dict_get req "account_num",
        dict_get req "routing_num", dict_get req "is_external" with
  | Some label, Some account_num, Some routing_num, Some is_external =>
      match judge (exactly_digits 10) account_num with
      | NotText => Raise TypeError
      | Fails => Raise (UserWarning "invalid account number")
      | Meets =>
          match judge (exactly_digits 9) routing_num with
          | NotText => Raise TypeError
          | Fails => Raise (UserWarning "invalid routing number")
          | Meets =>
              if truthy is_external
                 && py_eq routing_num (of_optional local_routing)
              then Raise (UserWarning "invalid routing number")
              else match judge label_ok label with
                   | NotText => Raise TypeError
                   | Fails => Raise (UserWarning "invalid account label")
                   | Meets => Return tt
                   end
          end
      end
  | _, _, _, _ => Raise (UserWarning "missing required field(s)")
  end.

(** The record passes rules (1) to (4), so that its label is looked at. *)
Definition reaches_label (local_routing : option string) (req : dict) : bool :=
  match dict_get req "label", dict_get req "account_num",
        dict_get req "routing_num", dict_get req "is_external" with
  | Some _, Some account_num, Some routing_num, Some is_external =>
      match judge (exactly_digits 10) account_num,
            judge (exactly_digits 9) routing_num with
      | Meets, Meets =>
          negb (truthy is_external
                && py_eq routing_num (of_optional local_routing))
      | _, _ => false
      end
  | _, _, _, _ => false
  end.

(** The one case the amended claim says nothing of: the label is looked
    at and is a label of the data model followed by a newline. *)
Definition newline_slip (local_routing : option string) (req : dict) : bool :=
  reaches_label local_routing req
  && match dict_get req "label" with
     | Some (VStr l) =>
         match chomp l with
         | Some t => label_ok t
         | None => false
         end
     | _ => false
     end.

Definition number_label : dict :=
  [("label", VInt 7); ("account_num", VStr "12");
   ("routing_num", VStr "111111111"); ("is_external", VBool false)].

Definition number_routing : dict :=
  [("label", VStr "Bob S"); ("account_num", VStr "0000000001");
   ("routing_num", VInt 5); ("is_external", VBool false)].

(** The answers of a POST and the stage that gives each, as the amended
    claim words them. *)
Definition post_outcome {DB : Type} `{ContactsDb DB} (a : app)
    (username : string) (rq : request) (w : world DB) (o : outcome) : Prop :=
  let auth := authenticate a username rq in
  let valid kvs :=
    _validate_new_contact (LOCAL_ROUTING a) (sanitized a kvs) in
  let allowed acct kvs :=
    fst (_check_contact_allowed a username acct (sanitized a kvs) w) in
  (o = Response 201 (Json (VDict []))
   /\ exists claims kvs acct c db',
        auth = Return claims /\ get_json rq = Parsed (VDict kvs)
        /\ valid kvs = Return tt
        /\ dict_get claims "acct" = Some acct
        /\ allowed acct kvs = Return tt
        /\ contact_of username (sanitized a kvs) c
        /\ db_add_contact (store w) c = (db', None))
  \/ (o = Response 401 (Text "authentication denied")
      /\ (auth = Raise InvalidTokenError \/ auth = Raise PermissionError))
  \/ (exists msg,
        o = Response 400 (Text msg)
        /\ exists claims kvs,
             auth = Return claims /\ get_json rq = Parsed (VDict kvs)
             /\ valid kvs = Raise (UserWarning msg))
  \/ (exists msg,
        o = Response 409 (Text msg)
        /\ exists claims kvs acct,
             auth = Return claims /\ get_json rq = Parsed (VDict kvs)
             /\ valid kvs = Return tt
             /\ dict_get claims "acct" = Some acct
             /\ allowed acct kvs = Raise (ValueError msg))
  \/ (o = Response 500 (Text "failed to add contact")
      /\ exists claims kvs acct,
           auth = Return claims /\ get_json rq = Parsed (VDict kvs)
           /\ valid kvs = Return tt
           /\ dict_get claims "acct" = Some acct
           /\ ((exists e,
                  db_get_contacts (store w) username = inl e
                  /\ allowed acct kvs = Raise (SQLAlchemyError e))
               \/ (allowed acct kvs = Return tt
                   /\ exists c db' e,
                        contact_of username (sanitized a kvs) c
                        /\ db_add_contact (store w) c = (db', Some e))))
  \/ (exists e,
        o = Unhandled e
        /\ ((e = KeyError "user" /\ auth = Raise e)
            \/ (e = BadRequest
                /\ exists claims, auth = Return claims
                                  /\ get_json rq = NotJson)
            \/ (e = AttributeError
                /\ exists claims v,
                     auth = Return claims /\ get_json rq = Parsed v
                     /\ forall kvs, v <> VDict kvs)
            \/ (e = TypeError
                /\ exists claims kvs,
                     auth = Return claims
                     /\ get_json rq = Parsed (VDict kvs)
                     /\ valid kvs = Raise e)
            \/ (e = KeyError "acct"
                /\ exists claims kvs,
                     auth = Return claims
                     /\ get_json rq = Parsed (VDict kvs)
                     /\ valid kvs = Return tt
                     /\ dict_get claims "acct" = None))).

(** What [bleach.clean] makes of text with a tag it does not allow: the
    characters that open and close markup are escaped.  Its documentation
    gives [an <script>evil()</script> example], cleaned to
    [an &lt;script&gt;evil()&lt;/script&gt; example]. *)
Fixpoint escape_markup (s : string) : string :=
  match s with
  | EmptyString => EmptyString
  | String c s' =>
      (if Ascii.eqb c "<" then "&lt;"
       else if Ascii.eqb c ">" then "&gt;"
       else if Ascii.eqb c "&" then "&amp;"
       else String c EmptyString) ++ escape_markup s'
  end.

(** The sample application with a sanitizer that changes what it cleans. *)
Definition escaping_app : app :=
  {| jwt_decode := sample_decode;
     bleach_clean := escape_markup;
     LOCAL_ROUTING := Some "123456789" |}.

(** ** Sample runs *)

Example sample_add :
  add_contact sample_app "alice" (post "alice.jwt" (VDict bob)) (fresh empty_db)
  = (Response 201 (Json (VDict [])),
     {| store := {| rows := [ {| c_username := "alice";
                                 c_label := VStr "Bob S";
                                 c_account_num := VStr "0000000001";
                                 c_routing_num := VStr "111111111";
                                 c_is_external := VBool true |} ];
                    get_error := None; add_error := None |};
        calls := [CallGet "alice";
                  CallAdd {| c_username := "alice";
                             c_label := VStr "Bob S";
                             c_account_num := VStr "0000000001";
                             c_routing_num := VStr "111111111";
                             c_is_external := VBool true |}] |}).
Proof. vm_compute. reflexivity. Qed.

Example sample_self_reference :
  fst (add_contact sample_app "alice"
         (post "alice.jwt"
            (VDict [("account_num", VStr "1234567890");
                    ("routing_num", VStr "123456789");
                    ("label", VStr "Me"); ("is_external", VBool false)]))
         (fresh empty_db))
  = Response 409 (Text "may not add yourself to contacts").
Proof. vm_compute. reflexivity. Qed.

Example sample_malformed_routing :
  fst (add_contact sample_app "alice"
         (post "alice.jwt"
            (VDict [("account_num", VStr "0000000001");
                    ("routing_num", VStr "12");
                    ("label", VStr "Bob S"); ("is_external", VBool true)]))
         (fresh empty_db))
  = Response 400 (Text "invalid routing number").
Proof. vm_compute. reflexivity. Qed.

Example sample_words :
  words (String TAB " a  b" ++ String TAB "c ") = ["a"; "b"; "c"].
Proof. vm_compute. reflexivity. Qed.

Example sample_split : split " " " a  b" = [""; "a"; ""; "b"].
Proof. vm_compute. reflexivity. Qed.

(** ** What the three patterns accept *)

Lemma class_rep_exact (p : ascii -> bool) (n : nat) :
  forall pos s k,
    (forall q t, k q t = is_empty t) ->
    class_rep p n n pos s k
    = Nat.eqb (String.length s) n && string_forall p s.
Proof.
  induction n as [|n IH]; intros pos s k Hk.
  - simpl. rewrite Hk. destruct s; reflexivity.
  - destruct s as [|c s'].
    + reflexivity.
    + cbn [class_rep Nat.pred Nat.eqb String.length string_forall].
      rewrite (IH _ _ _ Hk), andb_false_l, orb_false_r.
      destruct (p c), (Nat.eqb (String.length s') n); reflexivity.
Qed.

Lemma match_account_num (s : string) :
  match_items ACCOUNT_NUM_RE 0 s = exactly_digits 10 s.
Proof.
  unfold ACCOUNT_NUM_RE, exactly_digits.
  cbn [match_items Nat.eqb andb].
  apply class_rep_exact. intros q t. cbn. apply andb_true_r.
Qed.

Lemma match_routing_num (s : string) :
  match_items ROUTING_NUM_RE 0 s = exactly_digits 9 s.
Proof.
  unfold ROUTING_NUM_RE, exactly_digits.
  cbn [match_items Nat.eqb andb].
  apply class_rep_exact. intros q t. cbn. apply andb_true_r.
Qed.

Lemma chomp_cons (c c' : ascii) (s : string) :
  chomp (String c (String c' s))
  = match chomp (String c' s) with
    | Some t => Some (String c t)
    | None => None
    end.
Proof. reflexivity. Qed.

Lemma class_rep_upto (p : ascii -> bool) (hi : nat) :
  forall pos s k,
    (forall q t, k q t = at_dollar t) ->
    class_rep p 0 hi pos s k
    = upto p hi s
      || match chomp s with Some t => upto p hi t | None => false end.
Proof.
  unfold upto.
  induction hi as [|hi IH]; intros pos s k Hk.
  - cbn [class_rep Nat.eqb andb]. rewrite Hk.
    destruct s as [|c [|c' s'']].
    + reflexivity.
    + cbn. destruct (Ascii.eqb c _); reflexivity.
    + rewrite chomp_cons.
      destruct (chomp (String c' s'')); reflexivity.
  - destruct s as [|c s'].
    + cbn. apply Hk.
    + cbn [class_rep Nat.pred Nat.eqb andb].
      rewrite (IH _ _ _ Hk), Hk.
      destruct s' as [|c' s''].
      * cbn. destruct (p c), (Ascii.eqb c _); reflexivity.
      * rewrite chomp_cons. cbn [at_dollar]. rewrite orb_false_r.
        generalize (String c' s'') as u. intros u.
        destruct (chomp u) as [t|];
          cbn [String.length string_forall Nat.leb];
          destruct (p c); cbn [andb orb];
          repeat rewrite andb_false_r; reflexivity.
Qed.

Lemma match_label_cons (c : ascii) (s : string) :
  match_items LABEL_RE 0 (String c s)
  = is_alnum c && class_rep is_alnum_space 0 29 1 s (match_items [Dollar]).
Proof.
  unfold LABEL_RE.
  change (match_items (Caret :: ?r) 0 ?s) with (match_items r 0 s).
  change (match_items (Class ?p ?lo ?hi :: ?r) ?pos ?s)
    with (class_rep p lo hi pos s (match_items r)).
  change (class_rep ?p 1 1 0 (String c s) ?k)
    with (p c && (true && k 1 s) || false && k 0 (String c s)).
  cbn [andb]. rewrite orb_false_r. reflexivity.
Qed.

(** What Python's [re.match] makes of the label pattern: a label of the
    data model, or one followed by a single newline. *)
Lemma match_label (s : string) :
  match_items LABEL_RE 0 s
  = label_ok s
    || match chomp s with Some t => label_ok t | None => false end.
Proof.
  destruct s as [|c s'].
  - reflexivity.
  - rewrite match_label_cons.
    rewrite (class_rep_upto is_alnum_space 29 1 s'
               (match_items [Dollar])).
    2:{ intros q t. cbn [match_items]. apply andb_true_r. }
    unfold upto.
    destruct s' as [|c' s''].
    + cbn [label_ok chomp String.length string_forall Nat.leb andb orb].
      destruct (Ascii.eqb c LF), (is_alnum c); reflexivity.
    + rewrite chomp_cons.
      generalize (String c' s'') as u. intros u.
      destruct (chomp u) as [t|]; cbn [label_ok];
        destruct (is_alnum c); cbn [andb orb]; reflexivity.
Qed.

(** ** The validator follows the five rules *)

Lemma none_or_no_match_str (r : regex) (s : string) :
  none_or_no_match r (VStr s) = Return (negb (match_items r 0 s)).
Proof. reflexivity. Qed.

Lemma none_or_no_match_none (r : regex) :
  none_or_no_match r VNone = Return true.
Proof. reflexivity. Qed.

Lemma validate_unfold (lr : option string) (req : dict)
    (label account_num routing_num is_external : pyval) :
  dict_get req "label" = Some label ->
  dict_get req "account_num" = Some account_num ->
  dict_get req "routing_num" = Some routing_num ->
  dict_get req "is_external" = Some is_external ->
  _validate_new_contact lr req
  = (bad <- none_or_no_match ACCOUNT_NUM_RE account_num ;;
     raise_if bad (UserWarning "invalid account number") ;;
     bad <- none_or_no_match ROUTING_NUM_RE routing_num ;;
     raise_if bad (UserWarning "invalid routing number") ;;
     raise_if (truthy is_external && py_eq routing_num (of_optional lr))
              (UserWarning "invalid routing number") ;;
     bad <- none_or_no_match LABEL_RE label ;;
     raise_if bad (UserWarning "invalid account label")).
Proof.
  intros Hl Ha Hr He.
  unfold _validate_new_contact, getitem, fields, dict_mem.
  cbn [existsb]. rewrite Hl, Ha, Hr, He.
  cbn [negb orb raise_if bind].
  destruct (none_or_no_match ACCOUNT_NUM_RE account_num) as [[|]|];
    cbn [bind raise_if]; try reflexivity.
  destruct (none_or_no_match ROUTING_NUM_RE routing_num) as [[|]|];
    cbn [bind raise_if]; try reflexivity.
  destruct (truthy is_external); cbn [bind raise_if andb]; reflexivity.
Qed.

Lemma validate_missing (lr : option string) (req : dict) :
  existsb (fun f => negb (dict_mem req f)) fields = true ->
  _validate_new_contact lr req = Raise (UserWarning "missing required field(s)").
Proof.
  intros H. unfold _validate_new_contact. rewrite H. reflexivity.
Qed.

Lemma none_or_no_match_judge (r : regex) (p : string -> bool) (v : pyval) :
  (forall s, match_items r 0 s = p s) ->
  none_or_no_match r v
  = match judge p v with
    | Meets => Return false
    | Fails => Return true
    | NotText => Raise TypeError
    end.
Proof.
  intros Hp. destruct v; try reflexivity.
  rewrite none_or_no_match_str, Hp. cbn [judge]. now destruct (p s).
Qed.

(** C2 (amended).  On every sanitized record, but for one that passes
    rules (1) to (4) and whose label is a label of the data model followed
    by a newline, the validator is a function of the record that applies
    the five rules in order and stops at the first that fails: a missing
    key gives "missing required field(s)"; an [account_num] that is null
    or a string of not exactly 10 digits gives "invalid account number"; a
    [routing_num] that is null or a string of not exactly 9 digits gives
    "invalid routing number"; a truthy [is_external] with the local
    routing number gives "invalid routing number"; a [label] that is null
    or a string that is not a label of the data model gives "invalid
    account label"; otherwise the record passes.  An [account_num],
    [routing_num] or [label] that reaches its rule and is neither null nor
    a string raises [TypeError] there. *)
Theorem validate_follows_rules (lr : option string) (req : dict) :
  newline_slip lr req = false ->
  _validate_new_contact lr req = validate_rules_typed lr req
  /\ (forall r1 r2, _validate_new_contact lr req = r1 ->
                    _validate_new_contact lr req = r2 -> r1 = r2).
Proof.
  intros Hs. split; [|congruence].
  unfold newline_slip, reaches_label in Hs. unfold validate_rules_typed.
  destruct (dict_get req "label") as [l|] eqn:El.
  2:{ apply validate_missing. unfold fields, dict_mem. cbn [existsb].
      rewrite El. reflexivity. }
  destruct (dict_get req "account_num") as [a|] eqn:Ea.
  2:{ apply validate_missing. unfold fields, dict_mem. cbn [existsb].
      rewrite Ea. cbn [negb orb]. apply orb_true_r. }
  destruct (dict_get req "routing_num") as [r|] eqn:Er.
  2:{ apply validate_missing. unfold fields, dict_mem. cbn [existsb].
      rewrite Er. cbn [negb orb]. rewrite !orb_true_r. reflexivity. }
  destruct (dict_get req "is_external") as [e|] eqn:Ee.
  2:{ apply validate_missing. unfold fields, dict_mem. cbn [existsb].
      rewrite Ee. cbn [negb orb]. rewrite !orb_true_r. reflexivity. }
  rewrite (validate_unfold lr req l a r e El Ea Er Ee).
  rewrite (none_or_no_match_judge _ _ a match_account_num).
  destruct (judge (exactly_digits 10) a); cbn [bind raise_if];
    try reflexivity.
  rewrite (none_or_no_match_judge _ _ r match_routing_num).
  destruct (judge (exactly_digits 9) r); cbn [bind raise_if];
    try reflexivity.
  destruct (truthy e && py_eq r (of_optional lr));
    cbn [bind raise_if negb andb] in *; [reflexivity|].
  destruct l as [| | |sl| |]; try reflexivity.
  rewrite none_or_no_match_str, match_label. cbn [judge bind].
  destruct (chomp sl) as [t|]; [rewrite Hs|]; rewrite orb_false_r;
    destruct (label_ok sl); reflexivity.
Qed.

Lemma validate_follows_rules_witness :
  newline_slip (Some "123456789") number_label = false
  /\ _validate_new_contact (Some "123456789") number_label
     = Raise (UserWarning "invalid account number")
  /\ newline_slip (Some "123456789") number_routing = false
  /\ _validate_new_contact (Some "123456789") number_routing
     = Raise TypeError.
Proof.
  split; [reflexivity|]. split.
  - exact (proj1 (validate_follows_rules (Some "123456789") number_label
                    eq_refl)).
  - split; [reflexivity|].
    exact (proj1 (validate_follows_rules (Some "123456789") number_routing
                    eq_refl)).
Defined.

(** C2 as stated fails: an [account_num] that is a number is "not exactly
    10 digits", yet the validator raises [TypeError] from [re.match]
    instead of failing with "invalid account number". *)
Lemma validate_number_counterexample :
  let req := [("label", VStr "Bob S"); ("account_num", VInt 5);
              ("routing_num", VStr "111111111");
              ("is_external", VBool false)] in
  validate_rules (Some "123456789") req
    = Raise (UserWarning "invalid account number")
  /\ _validate_new_contact (Some "123456789") req = Raise TypeError
  /\ _validate_new_contact (Some "123456789") req
     <> validate_rules (Some "123456789") req.
Proof.
  cbv zeta. split; [reflexivity|]. split; [reflexivity|].
  vm_compute. discriminate.
Qed.

(** ** What each stage of a request can do *)

Lemma authenticate_raises (a : app) (username : string) (rq : request) (e : exn) :
  authenticate a username rq = Raise e ->
  e = InvalidTokenError \/ e = PermissionError \/ e = KeyError "user".
Proof.
  unfold authenticate, getitem.
  destruct (jwt_decode a (bearer_token (authorization rq))) as [p|];
    cbn [bind].
  - destruct (dict_get p "user") as [user|]; cbn [bind].
    + destruct (py_eq (VStr username) user); cbn [negb raise_if bind];
        intros E; inversion E; auto.
    + intros E; inversion E; auto.
  - intros E; inversion E; auto.
Qed.

Lemma authenticate_returns (a : app) (username : string) (rq : request)
    (claims : dict) :
  authenticate a username rq = Return claims ->
  jwt_decode a (bearer_token (authorization rq)) = Some claims
  /\ exists user, dict_get claims "user" = Some user
                  /\ py_eq (VStr username) user = true.
Proof.
  unfold authenticate, getitem.
  destruct (jwt_decode a (bearer_token (authorization rq))) as [p|];
    cbn [bind]; [|discriminate].
  destruct (dict_get p "user") as [user|] eqn:Eu; cbn [bind]; [|discriminate].
  destruct (py_eq (VStr username) user) eqn:Ep; cbn [negb raise_if bind];
    [|discriminate].
  intros E; inversion E; subst. split; [reflexivity|]. eauto.
Qed.

Lemma items_raises (x : pyval) (e : exn) :
  items x = Raise e -> e = AttributeError.
Proof. destruct x; cbn; intros E; inversion E; reflexivity. Qed.

Lemma body_items_raises (rq : request) (e : exn) :
  body_items rq = Raise e -> e = BadRequest \/ e = AttributeError.
Proof.
  unfold body_items. destruct (get_json rq) as [v|]; cbn [read_json bind].
  - intros E. right. exact (items_raises _ _ E).
  - intros E. left. now inversion E.
Qed.

Lemma body_items_returns (rq : request) (kvs : dict) :
  body_items rq = Return kvs <-> get_json rq = Parsed (VDict kvs).
Proof.
  unfold body_items. split.
  - destruct (get_json rq) as [v|]; cbn [read_json bind]; [|discriminate].
    destruct v; cbn; intros E; inversion E; reflexivity.
  - intros ->. reflexivity.
Qed.

Lemma body_items_not_object (rq : request) :
  body_items rq = Raise AttributeError <->
  exists v, get_json rq = Parsed v /\ forall kvs, v <> VDict kvs.
Proof.
  unfold body_items. split.
  - destruct (get_json rq) as [v|]; cbn [read_json bind]; [|discriminate].
    intros E. exists v. split; [reflexivity|].
    intros kvs ->. discriminate.
  - intros (v & -> & Hv). cbn [read_json bind].
    destruct v; try reflexivity. now destruct (Hv d).
Qed.

Lemma body_items_bad_request (rq : request) :
  body_items rq = Raise BadRequest <-> get_json rq = NotJson.
Proof.
  unfold body_items. split.
  - destruct (get_json rq) as [v|]; cbn [read_json bind]; [|reflexivity].
    intros E. apply items_raises in E. discriminate.
  - intros ->. reflexivity.
Qed.

Lemma none_or_no_match_raises (r : regex) (v : pyval) (e : exn) :
  none_or_no_match r v = Raise e -> e = TypeError.
Proof.
  destruct v; cbn; intros E; inversion E; reflexivity.
Qed.

Lemma none_or_no_match_false (r : regex) (v : pyval) :
  none_or_no_match r v = Return false ->
  exists s, v = VStr s /\ match_items r 0 s = true.
Proof.
  destruct v; cbn; intros E; inversion E.
  exists s. split; [reflexivity|]. now apply negb_false_iff.
Qed.

Lemma validate_raises (lr : option string) (req : dict) (e : exn) :
  _validate_new_contact lr req = Raise e ->
  (exists msg, e = UserWarning msg) \/ e = TypeError.
Proof.
  destruct (existsb (fun f => negb (dict_mem req f)) fields) eqn:Em.
  - rewrite (validate_missing lr req Em). intros E; inversion E; eauto.
  - unfold fields, dict_mem in Em. cbn [existsb] in Em.
    destruct (dict_get req "label") as [l|] eqn:El; [|discriminate].
    destruct (dict_get req "account_num") as [an|] eqn:Ea; [|discriminate].
    destruct (dict_get req "routing_num") as [rn|] eqn:Er; [|discriminate].
    destruct (dict_get req "is_external") as [ie|] eqn:Ee; [|discriminate].
    rewrite (validate_unfold lr req l an rn ie El Ea Er Ee).
    destruct (none_or_no_match ACCOUNT_NUM_RE an) as [[|]|x] eqn:E1;
      cbn [bind raise_if].
    + intros E; inversion E; eauto.
    + destruct (none_or_no_match ROUTING_NUM_RE rn) as [[|]|y] eqn:E2;
        cbn [bind raise_if].
      * intros E; inversion E; eauto.
      * destruct (truthy ie && py_eq rn (of_optional lr));
          cbn [bind raise_if].
        -- intros E; inversion E; eauto.
        -- destruct (none_or_no_match LABEL_RE l) as [[|]|z] eqn:E3;
             cbn [bind raise_if]; intros E; inversion E; subst; eauto.
           right. eapply none_or_no_match_raises; eauto.
      * intros E; inversion E; subst. right.
        eapply none_or_no_match_raises; eauto.
    + intros E; inversion E; subst. right.
      eapply none_or_no_match_raises; eauto.
Qed.

Lemma validate_returns (lr : option string) (req : dict) :
  _validate_new_contact lr req = Return tt ->
  exists sl sa sr ie,
    dict_get req "label" = Some (VStr sl)
    /\ dict_get req "account_num" = Some (VStr sa)
    /\ dict_get req "routing_num" = Some (VStr sr)
    /\ dict_get req "is_external" = Some ie
    /\ match_items LABEL_RE 0 sl = true
    /\ exactly_digits 10 sa = true
    /\ exactly_digits 9 sr = true
    /\ truthy ie && py_eq (VStr sr) (of_optional lr) = false.
Proof.
  destruct (existsb (fun f => negb (dict_mem req f)) fields) eqn:Em.
  - rewrite (validate_missing lr req Em). discriminate.
  - unfold fields, dict_mem in Em. cbn [existsb] in Em.
    destruct (dict_get req "label") as [l|] eqn:El; [|discriminate].
    destruct (dict_get req "account_num") as [an|] eqn:Ea; [|discriminate].
    destruct (dict_get req "routing_num") as [rn|] eqn:Er; [|discriminate].
    destruct (dict_get req "is_external") as [ie|] eqn:Ee; [|discriminate].
    rewrite (validate_unfold lr req l an rn ie El Ea Er Ee).
    destruct (none_or_no_match ACCOUNT_NUM_RE an) as [[|]|x] eqn:E1;
      cbn [bind raise_if]; try discriminate.
    destruct (none_or_no_match ROUTING_NUM_RE rn) as [[|]|y] eqn:E2;
      cbn [bind raise_if]; try discriminate.
    destruct (truthy ie && py_eq rn (of_optional lr)) eqn:E4;
      cbn [bind raise_if]; try discriminate.
    destruct (none_or_no_match LABEL_RE l) as [[|]|z] eqn:E3;
      cbn [bind raise_if]; try discriminate.
    intros _.
    apply none_or_no_match_false in E1 as (sa & -> & M1).
    apply none_or_no_match_false in E2 as (sr & -> & M2).
    apply none_or_no_match_false in E3 as (sl & -> & M3).
    rewrite match_account_num in M1. rewrite match_routing_num in M2.
    exists sl, sa, sr, ie. repeat split; assumption.
Qed.

Lemma check_each_rules (req : dict) (an rn l : pyval) (cs : list contact) :
  dict_get req "account_num" = Some an ->
  dict_get req "routing_num" = Some rn ->
  dict_get req "label" = Some l ->
  check_each cs req
  = match find (fun c => pair_match an rn c || label_match l c) cs with
    | Some c =>
        if pair_match an rn c
        then Raise (ValueError "account already exists as a contact")
        else Raise (ValueError "contact already exists with that label")
    | None => Return tt
    end.
Proof.
  intros Ha Hr Hl.
  induction cs as [|c cs IH]; [reflexivity|].
  cbn [check_each find]. unfold getitem, pair_match, label_match in *.
  rewrite Ha, Hr, Hl. cbn [bind].
  destruct (py_eq (c_account_num c) an) eqn:E1;
    destruct (py_eq (c_routing_num c) rn) eqn:E2;
    destruct (py_eq (c_label c) l) eqn:E3;
    cbn [bind raise_if andb orb]; rewrite ?E1, ?E2, ?E3;
    cbn [andb]; solve [reflexivity | exact IH].
Qed.

Lemma check_contact_allowed_unfold {DB : Type} `{ContactsDb DB} (a : app)
    (username : string) (acct : pyval) (req : dict) (w : world DB)
    (an rn : pyval) :
  dict_get req "account_num" = Some an ->
  dict_get req "routing_num" = Some rn ->
  _check_contact_allowed a username acct req w
  = if py_eq an acct && py_eq rn (of_optional (LOCAL_ROUTING a))
    then (Raise (ValueError "may not add yourself to contacts"), w)
    else match db_get_contacts (store w) username with
         | inl e => (Raise (SQLAlchemyError e),
                     after w (store w) [CallGet username])
         | inr cs => (check_each cs req,
                      after w (store w) [CallGet username])
         end.
Proof.
  intros Ha Hr.
  unfold _check_contact_allowed, bindP, lift, contacts_db_get_contacts,
    getitem, after.
  rewrite Ha, Hr. cbn [bind].
  destruct (py_eq an acct); cbn [bind andb raise_if].
  - destruct (py_eq rn (of_optional (LOCAL_ROUTING a))); cbn [raise_if].
    + reflexivity.
    + destruct (db_get_contacts (store w) username); reflexivity.
  - destruct (db_get_contacts (store w) username); reflexivity.
Qed.

Lemma add_contact_runs {DB : Type} `{ContactsDb DB} (a : app)
    (username : string) (rq : request) (w : world DB) :
  add_contact_run a username rq w (add_contact a username rq w).
Proof.
  unfold add_contact, add_contact_try, bindP, lift.
  destruct (authenticate a username rq) as [claims|e] eqn:EA.
  2:{ destruct (authenticate_raises _ _ _ _ EA) as [ -> | [ -> | -> ] ];
        cbn [add_contact_except].
      - eapply run_denied; eauto.
      - eapply run_denied; eauto.
      - eapply run_no_user; eauto. }
  destruct (body_items rq) as [kvs|e] eqn:EI.
  2:{ destruct (body_items_raises _ _ EI); subst e.
      - eapply run_bad_request; eauto.
      - eapply run_not_object; eauto. }
  destruct (_validate_new_contact (LOCAL_ROUTING a) (sanitized a kvs))
    as [[]|e] eqn:EV.
  2:{ destruct (validate_raises _ _ _ EV) as [ [msg ->] | -> ];
        cbn [add_contact_except].
      - eapply run_invalid; eauto.
      - eapply run_type_error; eauto. }
  destruct (validate_returns _ _ EV)
    as (sl & sa & sr & ie & Hl & Ha & Hr & He & _).
  unfold getitem at 1.
  destruct (dict_get claims "acct") as [acct|] eqn:EC.
  2:{ eapply run_no_acct; eauto. }
  pose proof (check_contact_allowed_unfold a username acct (sanitized a kvs)
                w _ _ Ha Hr) as EK.
  pose proof (fun cs => check_each_rules (sanitized a kvs) _ _ _ cs Ha Hr Hl)
    as EL.
  destruct (py_eq (VStr sa) acct
            && py_eq (VStr sr) (of_optional (LOCAL_ROUTING a))).
  { rewrite EK. cbn [add_contact_except].
    eapply run_self_reference; eauto. }
  destruct (db_get_contacts (store w) username) as [e|cs] eqn:EG.
  { rewrite EK. cbn [add_contact_except].
    eapply run_query_failed; eauto. }
  specialize (EL cs).
  destruct (check_each cs (sanitized a kvs)) as [[]|e] eqn:EE.
  2:{ rewrite EK.
      assert (exists msg, e = ValueError msg) as [msg ->].
      { destruct (find _ cs); [|discriminate].
        destruct (pair_match _ _ _); inversion EL; eauto. }
      cbn [add_contact_except]. eapply run_conflict; eauto. }
  rewrite EK. unfold getitem. rewrite Hl, Ha, Hr, He.
  unfold contacts_db_add_contact. cbn [store calls after].
  destruct (db_add_contact (store w) _) as [db' [e|]] eqn:ED;
    cbn [add_contact_except]; rewrite <- app_assoc; cbn [List.app].
  - eapply run_insert_failed; eauto.
  - eapply run_added; eauto.
Qed.

Lemma get_contacts_unfold {DB : Type} `{ContactsDb DB} (a : app)
    (username : string) (rq : request) (w : world DB) :
  get_contacts a username rq w
  = match authenticate a username rq with
    | Raise e => (get_contacts_except e, w)
    | Return _ =>
        match db_get_contacts (store w) username with
        | inl e => (Response 500 (Text "failed to retrieve contacts list"),
                    after w (store w) [CallGet username])
        | inr cs => (Response 200 (JsonContacts cs),
                     after w (store w) [CallGet username])
        end
    end.
Proof.
  unfold get_contacts, get_contacts_try, bindP, lift,
    contacts_db_get_contacts, after.
  destruct (authenticate a username rq); [|reflexivity].
  destruct (db_get_contacts (store w) username); reflexivity.
Qed.

Lemma add_contact_auth_failed {DB : Type} `{ContactsDb DB} (a : app)
    (username : string) (rq : request) (w : world DB) (e : exn) :
  authenticate a username rq = Raise e ->
  add_contact a username rq w = (add_contact_except e, w).
Proof.
  intros E. unfold add_contact, add_contact_try, bindP, lift.
  rewrite E. reflexivity.
Qed.

(** ** Identity *)

Lemma authenticate_mismatch (a : app) (username : string) (rq : request)
    (claims : dict) (user : pyval) :
  jwt_decode a (bearer_token (authorization rq)) = Some claims ->
  dict_get claims "user" = Some user ->
  py_eq (VStr username) user = false ->
  authenticate a username rq = Raise PermissionError.
Proof.
  intros Hj Hu Hp. unfold authenticate, getitem.
  rewrite Hj. cbn [bind]. rewrite Hu. cbn [bind]. rewrite Hp. reflexivity.
Qed.

Lemma authenticate_invalid_token (a : app) (username : string) (rq : request) :
  jwt_decode a (bearer_token (authorization rq)) = None ->
  authenticate a username rq = Raise InvalidTokenError.
Proof.
  intros Hj. unfold authenticate. rewrite Hj. reflexivity.
Qed.

Lemma authenticate_no_user (a : app) (username : string) (rq : request)
    (claims : dict) :
  jwt_decode a (bearer_token (authorization rq)) = Some claims ->
  dict_get claims "user" = None ->
  authenticate a username rq = Raise (KeyError "user").
Proof.
  intros Hj Hu. unfold authenticate, getitem.
  rewrite Hj. cbn [bind]. rewrite Hu. reflexivity.
Qed.

Lemma denied_by {DB : Type} `{ContactsDb DB} (a : app) (username : string)
    (rq : request) (w : world DB) (e : exn) :
  authenticate a username rq = Raise e ->
  e = InvalidTokenError \/ e = PermissionError ->
  get_contacts a username rq w
    = (Response 401 (Text "authentication denied"), w)
  /\ add_contact a username rq w
    = (Response 401 (Text "authentication denied"), w).
Proof.
  intros E He. rewrite get_contacts_unfold, (add_contact_auth_failed _ _ _ _ _ E).
  rewrite E. destruct He as [-> | ->]; split; reflexivity.
Qed.

(** C1.  A GET or POST whose token verifies but whose [user] claim differs
    from the [username] of the path is answered 401 "authentication
    denied", whatever the payload, with the store untouched; the answer is
    the very one a token that fails verification gets. *)
Theorem identity_mismatch_denied {DB : Type} `{ContactsDb DB} (a : app)
    (username : string) (rq : request) (w : world DB) (claims : dict)
    (user : pyval) :
  jwt_decode a (bearer_token (authorization rq)) = Some claims ->
  dict_get claims "user" = Some user ->
  py_eq (VStr username) user = false ->
  let denied := (Response 401 (Text "authentication denied"), w) in
  get_contacts a username rq w = denied
  /\ add_contact a username rq w = denied
  /\ forall rq',
       jwt_decode a (bearer_token (authorization rq')) = None ->
       get_contacts a username rq' w = get_contacts a username rq w
       /\ add_contact a username rq' w = add_contact a username rq w.
Proof.
  intros Hj Hu Hp denied.
  pose proof (authenticate_mismatch a username rq claims user Hj Hu Hp) as E.
  destruct (denied_by a username rq w _ E (or_intror eq_refl)) as [Eg Ea].
  split; [exact Eg|]. split; [exact Ea|].
  intros rq' Hn. rewrite Eg, Ea.
  apply (denied_by a username rq' w InvalidTokenError).
  - now apply authenticate_invalid_token.
  - now left.
Qed.

Lemma identity_mismatch_denied_witness :
  py_eq (VStr "mallory") (VStr "alice") = false
  /\ add_contact sample_app "mallory" (post "alice.jwt" (VDict bob))
       (fresh empty_db)
     = (Response 401 (Text "authentication denied"), fresh empty_db).
Proof.
  split; [reflexivity|].
  refine (proj1 (proj2
    (identity_mismatch_denied sample_app "mallory"
       (post "alice.jwt" (VDict bob)) (fresh empty_db)
       [("user", VStr "alice"); ("acct", VStr "1234567890")] (VStr "alice")
       _ _ _))); reflexivity.
Defined.

(** ** The bearer token *)

Lemma split_not_nil (sep : ascii) (s : string) : split sep s <> [].
Proof.
  destruct s as [|c s]; cbn [split]; [discriminate|].
  destruct (Ascii.eqb c sep); [discriminate|].
  destruct (split sep s); discriminate.
Qed.

Lemma split_without_sep (sep : ascii) (s : string) :
  string_forall (fun c => negb (Ascii.eqb c sep)) s = true ->
  split sep s = [s].
Proof.
  induction s as [|c s IH]; cbn [split string_forall]; [reflexivity|].
  intros Hs. apply andb_true_iff in Hs as [Hc Hs].
  apply negb_true_iff in Hc. rewrite Hc, (IH Hs). reflexivity.
Qed.

Lemma split_at_sep (sep : ascii) (pre tok : string) :
  exists l, l <> [] /\ split sep (pre ++ String sep tok) = (l ++ split sep tok)%list.
Proof.
  induction pre as [|c pre (l & Hl & IH)].
  - exists [EmptyString]. split; [discriminate|].
    cbn [append split]. rewrite Ascii.eqb_refl. reflexivity.
  - cbn [append split]. rewrite IH.
    destruct (Ascii.eqb c sep).
    + exists (EmptyString :: l). split; [discriminate | reflexivity].
    + destruct l as [|x l]; [contradiction|].
      exists (String c x :: l). split; [discriminate | reflexivity].
Qed.

Lemma last_app_not_nil {A : Type} (l m : list A) (d : A) :
  m <> [] -> last (l ++ m)%list d = last m d.
Proof.
  intros Hm. induction l as [|x l IH]; [reflexivity|].
  cbn [List.app]. rewrite <- IH.
  destruct (l ++ m)%list eqn:E; [|reflexivity].
  destruct l; [contradiction | discriminate].
Qed.

Lemma bearer_token_after_space (pre tok : string) :
  no_space tok = true ->
  bearer_token (Some (pre ++ String " " tok)) = tok.
Proof.
  intros Ht. unfold bearer_token.
  assert (truthy (of_optional (Some (pre ++ String " " tok))) = true) as ->.
  { destruct pre; reflexivity. }
  destruct (split_at_sep " " pre tok) as (l & _ & ->).
  rewrite (last_app_not_nil _ _ _ (split_not_nil " " tok)).
  rewrite (split_without_sep " " tok Ht). reflexivity.
Qed.

Lemma bearer_token_without_space (h : string) :
  no_space h = true -> bearer_token (Some h) = h.
Proof.
  intros Hh. unfold bearer_token.
  destruct h as [|c h]; [reflexivity|].
  change (truthy (of_optional (Some (String c h)))) with true. cbv iota.
  rewrite (split_without_sep " " _ Hh). reflexivity.
Qed.

(** C7 (amended).  The token submitted to verification is the last
    segment of the Authorization header split at the space character
    (U+0020): what follows the last space, so a scheme word before it is
    ignored, and the whole header when it holds no space; no other
    whitespace separates.  An absent header gives the empty token, and
    when verification rejects the empty token both handlers answer 401
    "authentication denied". *)
Theorem bearer_token_last_space_segment :
  (forall pre tok, no_space tok = true ->
                   bearer_token (Some (pre ++ String " " tok)) = tok)
  /\ (forall h, no_space h = true -> bearer_token (Some h) = h)
  /\ bearer_token None = ""
  /\ (forall (DB : Type) (H : ContactsDb DB) (a : app) (username : string)
             (rq : request) (w : world DB),
        authorization rq = None ->
        jwt_decode a "" = None ->
        get_contacts a username rq w
          = (Response 401 (Text "authentication denied"), w)
        /\ add_contact a username rq w
          = (Response 401 (Text "authentication denied"), w)).
Proof.
  split; [exact bearer_token_after_space|].
  split; [exact bearer_token_without_space|].
  split; [reflexivity|].
  intros DB H a username rq w Hh Hj.
  apply (denied_by a username rq w InvalidTokenError); [|now left].
  apply authenticate_invalid_token. rewrite Hh. exact Hj.
Qed.

Lemma bearer_token_last_space_segment_witness :
  bearer_token (Some "Bearer alice.jwt") = "alice.jwt"
  /\ get_contacts sample_app "alice"
       {| authorization := None; get_json := Parsed VNone |} (fresh empty_db)
     = (Response 401 (Text "authentication denied"), fresh empty_db).
Proof.
  split.
  - exact (proj1 bearer_token_last_space_segment "Bearer" "alice.jwt" eq_refl).
  - exact (proj1 (proj2 (proj2 (proj2 bearer_token_last_space_segment))
                    list_db _ sample_app "alice"
                    {| authorization := None; get_json := Parsed VNone |}
                    (fresh empty_db) eq_refl eq_refl)).
Defined.

(** C7 as stated fails: a tab is whitespace, yet the handlers do not split
    the header at it. *)
Lemma bearer_token_tab_counterexample :
  let header := "Bearer" ++ String TAB "alice.jwt" in
  last_whitespace_segment header = "alice.jwt"
  /\ bearer_token (Some header) = header
  /\ sample_decode (last_whitespace_segment header) <> None
  /\ sample_decode (bearer_token (Some header)) = None.
Proof.
  cbv zeta. repeat split; try reflexivity. vm_compute. discriminate.
Qed.

(** ** Missing claims *)

(** C9 (amended).  A token that verifies but whose claims lack [user]
    makes both handlers raise [KeyError], which no [except] clause
    catches.  A POST whose claims lack [acct] raises the uncaught
    [KeyError] once the [user] claim matches the path, the body is a JSON
    object and the sanitized record passes validation.  Such an outcome is
    none of the handled responses. *)
Theorem missing_claim_key_error {DB : Type} `{ContactsDb DB} (a : app)
    (username : string) (rq : request) (w : world DB) (claims : dict) :
  jwt_decode a (bearer_token (authorization rq)) = Some claims ->
  (dict_get claims "user" = None ->
   get_contacts a username rq w = (Unhandled (KeyError "user"), w)
   /\ add_contact a username rq w = (Unhandled (KeyError "user"), w))
  /\ (forall kvs,
        authenticate a username rq = Return claims ->
        dict_get claims "acct" = None ->
        get_json rq = Parsed (VDict kvs) ->
        _validate_new_contact (LOCAL_ROUTING a) (sanitized a kvs)
          = Return tt ->
        add_contact a username rq w = (Unhandled (KeyError "acct"), w))
  /\ (forall e status b, Unhandled e <> Response status b).
Proof.
  intros Hj. split; [|split].
  - intros Hu.
    pose proof (authenticate_no_user a username rq claims Hj Hu) as E.
    rewrite get_contacts_unfold, (add_contact_auth_failed _ _ _ _ _ E), E.
    split; reflexivity.
  - intros kvs EA Hc Hb EV.
    unfold add_contact, add_contact_try, bindP, lift, getitem.
    apply body_items_returns in Hb.
    rewrite EA, Hb, EV, Hc. reflexivity.
  - discriminate.
Qed.

Lemma missing_claim_key_error_witness :
  add_contact sample_app "alice" (post "alice-no-acct.jwt" (VDict bob))
    (fresh empty_db)
  = (Unhandled (KeyError "acct"), fresh empty_db).
Proof.
  refine (proj1 (proj2
    (missing_claim_key_error sample_app "alice"
       (post "alice-no-acct.jwt" (VDict bob)) (fresh empty_db)
       [("user", VStr "alice")] eq_refl)) bob _ _ _ _); reflexivity.
Defined.

(** C9 as stated fails: a POST whose claims lack [acct] and whose body
    lacks the required fields is answered 400 and raises nothing. *)
Lemma missing_acct_counterexample :
  sample_decode "alice-no-acct.jwt" = Some [("user", VStr "alice")]
  /\ add_contact sample_app "alice" (post "alice-no-acct.jwt" (VDict []))
       (fresh empty_db)
     = (Response 400 (Text "missing required field(s)"), fresh empty_db).
Proof. split; reflexivity. Qed.

(** ** The business rules *)

Lemma add_contact_check_failed {DB : Type} `{ContactsDb DB} (a : app)
    (username : string) (rq : request) (w w' : world DB) (claims kvs : dict)
    (acct : pyval) (e : exn) :
  authenticate a username rq = Return claims ->
  get_json rq = Parsed (VDict kvs) ->
  _validate_new_contact (LOCAL_ROUTING a) (sanitized a kvs) = Return tt ->
  dict_get claims "acct" = Some acct ->
  _check_contact_allowed a username acct (sanitized a kvs) w = (Raise e, w') ->
  add_contact a username rq w = (add_contact_except e, w').
Proof.
  intros EA Hb EV Hc EK.
  unfold add_contact, add_contact_try, bindP, lift, getitem.
  apply body_items_returns in Hb.
  rewrite EA, Hb, EV, Hc, EK. reflexivity.
Qed.

(** C3.  For a candidate that passed validation, the check fails first
    with "may not add yourself to contacts" when its [account_num] equals
    the [acct] claim of the token and its [routing_num] the local routing
    number, whatever the store holds; otherwise, the stored contacts of the
    user being [cs], it goes through them in order and the first that
    shares the (account_num, routing_num) pair or the label decides:
    "account already exists as a contact" for the pair, else "contact
    already exists with that label"; when none does it passes.  The POST
    answers 409 with that message. *)
Theorem business_rules {DB : Type} `{ContactsDb DB} (a : app)
    (username : string) (rq : request) (w : world DB) (claims kvs : dict)
    (acct : pyval) :
  authenticate a username rq = Return claims ->
  dict_get claims "acct" = Some acct ->
  get_json rq = Parsed (VDict kvs) ->
  _validate_new_contact (LOCAL_ROUTING a) (sanitized a kvs) = Return tt ->
  exists account_num routing_num label,
    dict_get (sanitized a kvs) "account_num" = Some account_num
    /\ dict_get (sanitized a kvs) "routing_num" = Some routing_num
    /\ dict_get (sanitized a kvs) "label" = Some label
    /\ (py_eq account_num acct
        && py_eq routing_num (of_optional (LOCAL_ROUTING a)) = true ->
        fst (_check_contact_allowed a username acct (sanitized a kvs) w)
          = Raise (ValueError "may not add yourself to contacts")
        /\ fst (add_contact a username rq w)
           = Response 409 (Text "may not add yourself to contacts"))
    /\ (forall cs,
          db_get_contacts (store w) username = inr cs ->
          let verdict :=
            allowed_rules (LOCAL_ROUTING a) acct account_num routing_num
              label cs in
          fst (_check_contact_allowed a username acct (sanitized a kvs) w)
            = verdict
          /\ forall msg, verdict = Raise (ValueError msg) ->
               fst (add_contact a username rq w) = Response 409 (Text msg)).
Proof.
  intros EA Hc Hb EV.
  destruct (validate_returns _ _ EV)
    as (sl & sa & sr & ie & Hl & Ha & Hr & _).
  exists (VStr sa), (VStr sr), (VStr sl).
  split; [exact Ha|]. split; [exact Hr|]. split; [exact Hl|].
  pose proof (check_contact_allowed_unfold a username acct (sanitized a kvs)
                w _ _ Ha Hr) as EK.
  split.
  - intros Hself. rewrite Hself in EK. split.
    + rewrite EK. reflexivity.
    + rewrite (add_contact_check_failed a username rq w w claims kvs acct _
                 EA Hb EV Hc EK). reflexivity.
  - intros cs EG verdict.
    assert (_check_contact_allowed a username acct (sanitized a kvs) w
            = (verdict, if py_eq (VStr sa) acct
                           && py_eq (VStr sr) (of_optional (LOCAL_ROUTING a))
                        then w else after w (store w) [CallGet username]))
      as EK'.
    { rewrite EK. unfold verdict, allowed_rules.
      destruct (py_eq (VStr sa) acct
                && py_eq (VStr sr) (of_optional (LOCAL_ROUTING a)));
        [reflexivity|].
      rewrite EG, (check_each_rules _ _ _ _ cs Ha Hr Hl). reflexivity. }
    split.
    + rewrite EK'. reflexivity.
    + intros msg Hv. rewrite Hv in EK'.
      rewrite (add_contact_check_failed a username rq w _ claims kvs acct _
                 EA Hb EV Hc EK'). reflexivity.
Qed.

Lemma business_rules_witness :
  fst (add_contact sample_app "alice" (post "alice.jwt" (VDict bob))
         (fresh {| rows := [carol]; get_error := None; add_error := None |}))
  = Response 409 (Text "account already exists as a contact").
Proof.
  destruct (business_rules sample_app "alice" (post "alice.jwt" (VDict bob))
              (fresh {| rows := [carol]; get_error := None;
                        add_error := None |})
              [("user", VStr "alice"); ("acct", VStr "1234567890")] bob
              (VStr "1234567890") eq_refl eq_refl eq_refl eq_refl)
    as (an & rn & l & Ha & Hr & Hl & _ & Hloop).
  injection Ha as <-. injection Hr as <-. injection Hl as <-.
  exact (proj2 (Hloop [carol] eq_refl) _ eq_refl).
Defined.

(** ** What a POST does to the store *)

(** A POST leaves the world as it is, or queries the store and stops, or
    queries it and inserts one contact, the validated record of the
    authenticated owner. *)
Lemma add_contact_effect {DB : Type} `{ContactsDb DB} (a : app)
    (username : string) (rq : request) (w : world DB) :
  let r := add_contact a username rq w in
  (snd r = w
   /\ (fst r = Response 401 (Text "authentication denied")
       \/ (exists msg, fst r = Response 400 (Text msg))
       \/ fst r = Response 409 (Text "may not add yourself to contacts")
       \/ exists e, fst r = Unhandled e))
  \/ (snd r = after w (store w) [CallGet username]
      /\ (fst r = Response 500 (Text "failed to add contact")
          \/ exists msg, fst r = Response 409 (Text msg)))
  \/ (exists claims kvs c db' err,
        authenticate a username rq = Return claims
        /\ get_json rq = Parsed (VDict kvs)
        /\ _validate_new_contact (LOCAL_ROUTING a) (sanitized a kvs)
           = Return tt
        /\ contact_of username (sanitized a kvs) c
        /\ db_add_contact (store w) c = (db', err)
        /\ snd r = after w db' [CallGet username; CallAdd c]
        /\ fst r = match err with
                   | Some _ => Response 500 (Text "failed to add contact")
                   | None => Response 201 (Json (VDict []))
                   end).
Proof.
  cbv zeta.
  destruct (add_contact_runs a username rq w) as
    [ e EA He | EA | claims EA EI | claims EA EI | claims kvs msg EA EI EV
    | claims kvs EA EI EV | claims kvs EA EI EV EC
    | claims kvs acct EA EI EV EC EK | claims kvs acct e EA EI EV EC EG EK
    | claims kvs acct msg EA EI EV EC EK
    | claims kvs acct l an rn ie db' e EA EI EV EC EK Hl Ha Hr Hie c ED
    | claims kvs acct l an rn ie db' EA EI EV EC EK Hl Ha Hr Hie c ED ];
    cbn [fst snd].
  - left. auto.
  - left. eauto 6.
  - left. eauto 6.
  - left. eauto 6.
  - left. eauto 6.
  - left. eauto 6.
  - left. eauto 6.
  - left. auto.
  - right. left. auto.
  - right. left. eauto.
  - right. right. exists claims, kvs, c, db', (Some e).
    apply body_items_returns in EI. repeat split; auto.
  - right. right. exists claims, kvs, c, db', None.
    apply body_items_returns in EI. repeat split; auto.
Qed.

Lemma app_eq_self {A : Type} (l m : list A) : l = (l ++ m)%list -> m = [].
Proof.
  intros E. apply (app_inv_head l). rewrite app_nil_r. symmetry. exact E.
Qed.

(** ** Storage errors *)

(** C5 (amended).  When the store's append is called and fails with a
    storage error, a uniqueness violation ([IntegrityError]) included, the
    POST is answered with the generic storage failure, 500 "failed to add
    contact"; it is not turned into the 409 of the pre-check. *)
Theorem insert_failure_is_storage_failure {DB : Type} `{ContactsDb DB}
    (a : app) (username : string) (rq : request) (w : world DB)
    (l : list db_call) (c : contact) (db' : DB) (e : sqlalchemy_error) :
  calls (snd (add_contact a username rq w)) = (calls w ++ l)%list ->
  In (CallAdd c) l ->
  db_add_contact (store w) c = (db', Some e) ->
  fst (add_contact a username rq w)
  = Response 500 (Text "failed to add contact").
Proof.
  intros Hc Hin Hd.
  destruct (add_contact_effect a username rq w)
    as [[Ew _] | [[Ew _] | (claims & kvs & c0 & db0 & err & _ & _ & _ & _
                             & Hd0 & Ew & Eo)]];
    rewrite Ew in Hc; cbn [after calls] in Hc.
  - apply app_eq_self in Hc. subst l. contradiction.
  - apply app_inv_head in Hc. subst l.
    destruct Hin as [Hin | []]. discriminate.
  - apply app_inv_head in Hc. subst l.
    destruct Hin as [Hin | [Hin | []]]; [discriminate|].
    injection Hin as ->. rewrite Hd in Hd0. injection Hd0 as <- <-.
    exact Eo.
Qed.

Lemma insert_failure_is_storage_failure_witness :
  db_add_contact racing_db bob_contact = (racing_db, Some IntegrityError)
  /\ fst (add_contact sample_app "alice" (post "alice.jwt" (VDict bob))
            (fresh racing_db))
     = Response 500 (Text "failed to add contact").
Proof.
  split; [reflexivity|].
  apply (insert_failure_is_storage_failure sample_app "alice"
           (post "alice.jwt" (VDict bob)) (fresh racing_db)
           [CallGet "alice"; CallAdd bob_contact] bob_contact racing_db
           IntegrityError).
  - reflexivity.
  - right. left. reflexivity.
  - reflexivity.
Defined.

(** C5 as stated fails: the append raises [IntegrityError] and the answer
    is the generic 500, not a 409. *)
Lemma uniqueness_violation_counterexample :
  let r := add_contact sample_app "alice" (post "alice.jwt" (VDict bob))
             (fresh racing_db) in
  calls (snd r) = [CallGet "alice"; CallAdd bob_contact]
  /\ db_add_contact racing_db bob_contact = (racing_db, Some IntegrityError)
  /\ fst r = Response 500 (Text "failed to add contact")
  /\ forall msg, fst r <> Response 409 (Text msg).
Proof.
  cbv zeta. repeat split. intros msg. vm_compute. discriminate.
Qed.

(** ** Failed requests *)

(** C8.  A POST answered 401, 400 or 409 never calls the store's append
    and leaves the store as it was.  A GET never calls it either.  A POST
    changes the store by at most one append, of the validated record, owned
    by the user the token and the path name; on the list-backed store the
    contacts held before are all kept, in place. *)
Theorem store_changes_only_by_append {DB : Type} `{ContactsDb DB} (a : app)
    (username : string) (rq : request) (w : world DB) :
  (forall status b,
      fst (add_contact a username rq w) = Response status b ->
      status = 401 \/ status = 400 \/ status = 409 ->
      store (snd (add_contact a username rq w)) = store w
      /\ exists l,
           calls (snd (add_contact a username rq w)) = (calls w ++ l)%list
           /\ forall c, ~ In (CallAdd c) l)
  /\ (store (snd (get_contacts a username rq w)) = store w
      /\ exists l,
           calls (snd (get_contacts a username rq w)) = (calls w ++ l)%list
           /\ forall c, ~ In (CallAdd c) l)
  /\ (snd (add_contact a username rq w) = w
      \/ snd (add_contact a username rq w)
         = after w (store w) [CallGet username]
      \/ exists claims kvs c,
           authenticate a username rq = Return claims
           /\ get_json rq = Parsed (VDict kvs)
           /\ _validate_new_contact (LOCAL_ROUTING a) (sanitized a kvs)
              = Return tt
           /\ contact_of username (sanitized a kvs) c
           /\ snd (add_contact a username rq w)
              = after w (fst (db_add_contact (store w) c))
                  [CallGet username; CallAdd c])
  /\ (forall w0 : world list_db,
        rows (store (snd (get_contacts a username rq w0))) = rows (store w0)
        /\ exists added,
             rows (store (snd (add_contact a username rq w0)))
             = (rows (store w0) ++ added)%list).
Proof.
  split; [|split; [|split]].
  - intros status b Eo Hs.
    destruct (add_contact_effect a username rq w)
      as [[Ew _] | [[Ew _] | (claims & kvs & c0 & db0 & err & _ & _ & _ & _
                               & _ & _ & Eo')]].
    + rewrite Ew. split; [reflexivity|]. exists [].
      split; [now rewrite app_nil_r | intros c []].
    + rewrite Ew. split; [reflexivity|]. exists [CallGet username].
      split; [reflexivity|]. intros c [Hc | []]. discriminate.
    + rewrite Eo in Eo'. destruct err; injection Eo' as -> _; lia.
  - rewrite get_contacts_unfold.
    destruct (authenticate a username rq).
    + destruct (db_get_contacts (store w) username); cbn [snd after store calls];
        (split; [reflexivity|]); exists [CallGet username];
        (split; [reflexivity|]); intros c [Hc | []]; discriminate.
    + cbn [snd]. split; [reflexivity|]. exists [].
      split; [now rewrite app_nil_r | intros c []].
  - destruct (add_contact_effect a username rq w)
      as [[Ew _] | [[Ew _] | (claims & kvs & c0 & db0 & err & EA & Hb & EV
                               & Hc & Hd & Ew & _)]].
    + left. exact Ew.
    + right. left. exact Ew.
    + right. right. exists claims, kvs, c0. rewrite Hd. auto.
  - intros w0. split.
    + rewrite get_contacts_unfold.
      destruct (authenticate a username rq); [|reflexivity].
      destruct (db_get_contacts (store w0) username); reflexivity.
    + destruct (add_contact_effect a username rq w0)
        as [[Ew _] | [[Ew _] | (claims & kvs & c0 & db0 & err & _ & _ & _
                                 & _ & Hd & Ew & _)]];
        rewrite Ew; cbn [after store].
      * exists []. now rewrite app_nil_r.
      * exists []. now rewrite app_nil_r.
      * cbn [db_add_contact list_db_ContactsDb] in Hd.
        destruct (add_error (store w0)); injection Hd as <- _.
        -- exists []. now rewrite app_nil_r.
        -- exists [c0]. reflexivity.
Qed.

Lemma store_changes_only_by_append_witness :
  store (snd (add_contact sample_app "alice"
                (post "alice.jwt" (VDict [("label", VStr "Bob S")]))
                (fresh empty_db)))
  = empty_db.
Proof.
  exact (proj1 (proj1 (store_changes_only_by_append sample_app "alice"
                         (post "alice.jwt" (VDict [("label", VStr "Bob S")]))
                         (fresh empty_db))
                  400 (Text "missing required field(s)") eq_refl
                  (or_intror (or_introl eq_refl)))).
Defined.

(** ** What is persisted *)

Lemma dict_get_sanitized (a : app) (kvs : dict) (k : string) :
  dict_get (sanitized a kvs) k = option_map (sanitize a) (dict_get kvs k).
Proof.
  unfold sanitized.
  induction kvs as [|[k' v] kvs IH]; [reflexivity|].
  cbn [map dict_get fst snd]. destruct (String.eqb k' k); [reflexivity|].
  exact IH.
Qed.

Lemma py_eq_environ (s : string) (lr : option string) :
  py_eq (VStr s) (of_optional lr) = false -> lr <> Some s.
Proof.
  intros E ->. cbn in E. rewrite String.eqb_refl in E. discriminate.
Qed.

(** X11.  Every contact a POST inserts is the validated record: its
    account and routing numbers are exactly 10 and 9 digits, an external
    one does not carry the local routing number, and its label is a label
    of the data model, possibly followed by one newline. *)
Lemma persisted_contact_invariants {DB : Type} `{ContactsDb DB} (a : app)
    (username : string) (rq : request) (w : world DB) (b : body) :
  fst (add_contact a username rq w) = Response 201 b ->
  exists c sl sa sr,
    calls (snd (add_contact a username rq w))
      = (calls w ++ [CallGet username; CallAdd c])%list
    /\ c_username c = username
    /\ c_label c = VStr sl
    /\ c_account_num c = VStr sa
    /\ c_routing_num c = VStr sr
    /\ exactly_digits 10 sa = true
    /\ exactly_digits 9 sr = true
    /\ (truthy (c_is_external c) = true -> LOCAL_ROUTING a <> Some sr)
    /\ (label_ok sl = true
        \/ exists t, chomp sl = Some t /\ label_ok t = true).
Proof.
  intros Eo.
  destruct (add_contact_effect a username rq w)
    as [[_ Ho] | [[_ Ho] | (claims & kvs & c & db0 & err & _ & _ & EV
                             & (Hu & Hl & Ha & Hr & He) & _ & Ew & _)]].
  - rewrite Eo in Ho.
    destruct Ho as [Ho | [[msg Ho] | [Ho | [e Ho]]]]; discriminate.
  - rewrite Eo in Ho. destruct Ho as [Ho | [msg Ho]]; discriminate.
  - destruct (validate_returns _ _ EV)
      as (sl & sa & sr & ie & Hl' & Ha' & Hr' & He' & Ml & Ma & Mr & Mx).
    rewrite Hl in Hl'. rewrite Ha in Ha'. rewrite Hr in Hr'.
    rewrite He in He'.
    injection Hl' as Hl'. injection Ha' as Ha'. injection Hr' as Hr'.
    injection He' as He'.
    exists c, sl, sa, sr. rewrite Ew. cbn [after calls].
    repeat (split; [solve [auto]|]). split.
    + intros Ht. rewrite He' in Ht. rewrite Ht in Mx.
      apply py_eq_environ. exact Mx.
    + rewrite match_label in Ml. apply orb_true_iff in Ml as [Ml | Ml];
        [now left | right].
      destruct (chomp sl) as [t|]; [eauto | discriminate].
Qed.

(** C4 fails on the code.  A label that ends with a newline passes the
    label pattern, whose [$] matches before a final newline, and the POST
    persists it: the stored label is not a label of the data model. *)
Theorem label_with_newline_persisted :
  let label := "Bob" ++ String LF "" in
  let rq := post "alice.jwt"
              (VDict [("account_num", VStr "0000000001");
                      ("routing_num", VStr "111111111");
                      ("label", VStr label);
                      ("is_external", VBool true)]) in
  label_ok label = false
  /\ exists w',
       add_contact sample_app "alice" rq (fresh empty_db)
         = (Response 201 (Json (VDict [])), w')
       /\ map c_label (rows (store w')) = [VStr label].
Proof.
  cbv zeta. split; [reflexivity|].
  eexists. split; [vm_compute; reflexivity | reflexivity].
Qed.

(** ** The [is_external] flag *)

(** C10.  The validator never looks at the type of [is_external]: with
    the other three fields valid, a record passes exactly when the value is
    falsy or the routing number is not the local one, and a truthy value
    with the local routing number fails with "invalid routing number"; the
    string "false" is truthy.  What a successful POST persists as
    [is_external] is the value of the body: [bleach.clean] of it when it
    is a string, the value itself otherwise, and it is that persisted
    value which is falsy or comes with a routing number that is not the
    local one.  It need not be a boolean: a string is persisted as a
    string, and markup in it is persisted cleaned. *)
Theorem is_external_any_type :
  (forall lr req sl sa sr v,
      dict_get req "label" = Some (VStr sl) ->
      dict_get req "account_num" = Some (VStr sa) ->
      dict_get req "routing_num" = Some (VStr sr) ->
      dict_get req "is_external" = Some v ->
      match_items LABEL_RE 0 sl = true ->
      exactly_digits 10 sa = true ->
      exactly_digits 9 sr = true ->
      (_validate_new_contact lr req = Return tt
       <-> truthy v = false \/ py_eq (VStr sr) (of_optional lr) = false)
      /\ (truthy v = true ->
          py_eq (VStr sr) (of_optional lr) = true ->
          _validate_new_contact lr req
          = Raise (UserWarning "invalid routing number")))
  /\ truthy (VStr "false") = true
  /\ (forall (DB : Type) (H : ContactsDb DB) (a : app) (username : string)
             (rq : request) (w : world DB) (b : body),
        fst (add_contact a username rq w) = Response 201 b ->
        exists kvs v c,
          get_json rq = Parsed (VDict kvs)
          /\ dict_get kvs "is_external" = Some v
          /\ calls (snd (add_contact a username rq w))
             = (calls w ++ [CallGet username; CallAdd c])%list
          /\ c_is_external c = match v with
                               | VStr s => VStr (bleach_clean a s)
                               | _ => v
                               end
          /\ (truthy (c_is_external c) = false
              \/ py_eq (c_routing_num c) (of_optional (LOCAL_ROUTING a))
                 = false))
  /\ (exists w',
        add_contact sample_app "alice"
          (post "alice.jwt"
             (VDict [("account_num", VStr "0000000001");
                     ("routing_num", VStr "111111111");
                     ("label", VStr "Bob S");
                     ("is_external", VStr "no")]))
          (fresh empty_db)
        = (Response 201 (Json (VDict [])), w')
        /\ map c_is_external (rows (store w')) = [VStr "no"])
  /\ (exists w',
        add_contact escaping_app "alice"
          (post "alice.jwt"
             (VDict [("account_num", VStr "0000000001");
                     ("routing_num", VStr "111111111");
                     ("label", VStr "Bob S");
                     ("is_external",
                      VStr "an <script>evil()</script> example")]))
          (fresh empty_db)
        = (Response 201 (Json (VDict [])), w')
        /\ map c_is_external (rows (store w'))
           = [VStr "an &lt;script&gt;evil()&lt;/script&gt; example"]).
Proof.
  split; [|split; [reflexivity | split; [|split]]].
  - intros lr req sl sa sr v Hl Ha Hr He Ml Ma Mr.
    rewrite (validate_unfold lr req _ _ _ _ Hl Ha Hr He).
    rewrite !none_or_no_match_str, match_account_num, match_routing_num,
      Ma, Mr, Ml.
    cbn [negb bind raise_if].
    destruct (truthy v); destruct (py_eq (VStr sr) (of_optional lr));
      cbn [andb bind raise_if]; split;
      try (split; [intros _; auto | intros _; reflexivity]);
      try (split; [discriminate | intros [Hx | Hx]; discriminate]);
      try (intros _ _; reflexivity); try discriminate;
      try (intros Hx; discriminate).
  - intros DB H a username rq w b Eo.
    destruct (add_contact_effect a username rq w)
      as [[_ Ho] | [[_ Ho] | (claims & kvs & c & db0 & err & _ & Hb & EV
                               & (_ & _ & _ & Hr & He) & _ & Ew & _)]].
    + rewrite Eo in Ho.
      destruct Ho as [Ho | [[msg Ho] | [Ho | [e Ho]]]]; discriminate.
    + rewrite Eo in Ho. destruct Ho as [Ho | [msg Ho]]; discriminate.
    + destruct (validate_returns _ _ EV)
        as (sl & sa & sr & ie & _ & _ & Hr' & He' & _ & _ & _ & Mx).
      rewrite Hr in Hr'. injection Hr' as Hr'.
      rewrite He in He'. injection He' as He'.
      rewrite dict_get_sanitized in He.
      destruct (dict_get kvs "is_external") as [v|] eqn:Ev; [|discriminate].
      injection He as He.
      exists kvs, v, c. rewrite Ew.
      split; [exact Hb|]. split; [exact Ev|]. split; [reflexivity|].
      split.
      * rewrite <- He. now destruct v.
      * rewrite Hr', He'. now apply andb_false_iff.
  - eexists. split; [vm_compute; reflexivity | reflexivity].
  - eexists. split; [vm_compute; reflexivity | reflexivity].
Qed.

Lemma is_external_any_type_witness :
  _validate_new_contact (Some "123456789")
    [("label", VStr "Bob S"); ("account_num", VStr "0000000001");
     ("routing_num", VStr "123456789"); ("is_external", VStr "false")]
  = Raise (UserWarning "invalid routing number").
Proof.
  refine (proj2 (proj1 is_external_any_type (Some "123456789")
                   [("label", VStr "Bob S"); ("account_num", VStr "0000000001");
                    ("routing_num", VStr "123456789");
                    ("is_external", VStr "false")]
                   "Bob S" "0000000001" "123456789" (VStr "false")
                   eq_refl eq_refl eq_refl eq_refl _ eq_refl eq_refl)
            eq_refl eq_refl).
  vm_compute. reflexivity.
Defined.

(** ** The answers of a POST *)

Lemma add_contact_body_failed {DB : Type} `{ContactsDb DB} (a : app)
    (username : string) (rq : request) (w : world DB) (claims : dict)
    (e : exn) :
  authenticate a username rq = Return claims ->
  body_items rq = Raise e ->
  add_contact a username rq w = (add_contact_except e, w).
Proof.
  intros EA EI. unfold add_contact, add_contact_try, bindP, lift.
  rewrite EA, EI. reflexivity.
Qed.

Lemma add_contact_invalid {DB : Type} `{ContactsDb DB} (a : app)
    (username : string) (rq : request) (w : world DB) (claims kvs : dict)
    (e : exn) :
  authenticate a username rq = Return claims ->
  get_json rq = Parsed (VDict kvs) ->
  _validate_new_contact (LOCAL_ROUTING a) (sanitized a kvs) = Raise e ->
  add_contact a username rq w = (add_contact_except e, w).
Proof.
  intros EA Hb EV. apply body_items_returns in Hb.
  unfold add_contact, add_contact_try, bindP, lift.
  rewrite EA, Hb, EV. reflexivity.
Qed.

Lemma add_contact_no_acct {DB : Type} `{ContactsDb DB} (a : app)
    (username : string) (rq : request) (w : world DB) (claims kvs : dict) :
  authenticate a username rq = Return claims ->
  get_json rq = Parsed (VDict kvs) ->
  _validate_new_contact (LOCAL_ROUTING a) (sanitized a kvs) = Return tt ->
  dict_get claims "acct" = None ->
  add_contact a username rq w = (Unhandled (KeyError "acct"), w).
Proof.
  intros EA Hb EV Hc. apply body_items_returns in Hb.
  unfold add_contact, add_contact_try, bindP, lift, getitem.
  rewrite EA, Hb, EV, Hc. reflexivity.
Qed.

Lemma check_keeps_store {DB : Type} `{ContactsDb DB} (a : app)
    (username : string) (acct : pyval) (req : dict) (w : world DB) :
  store (snd (_check_contact_allowed a username acct req w)) = store w.
Proof.
  unfold _check_contact_allowed, bindP, lift, contacts_db_get_contacts.
  destruct (_ ;; _) as [[]|e]; [|reflexivity].
  destruct (db_get_contacts (store w) username); reflexivity.
Qed.

Lemma add_contact_inserts {DB : Type} `{ContactsDb DB} (a : app)
    (username : string) (rq : request) (w : world DB) (claims kvs : dict)
    (acct : pyval) (c : contact) (db' : DB) (err : option sqlalchemy_error) :
  authenticate a username rq = Return claims ->
  get_json rq = Parsed (VDict kvs) ->
  _validate_new_contact (LOCAL_ROUTING a) (sanitized a kvs) = Return tt ->
  dict_get claims "acct" = Some acct ->
  fst (_check_contact_allowed a username acct (sanitized a kvs) w)
    = Return tt ->
  contact_of username (sanitized a kvs) c ->
  db_add_contact (store w) c = (db', err) ->
  fst (add_contact a username rq w)
  = match err with
    | Some _ => Response 500 (Text "failed to add contact")
    | None => Response 201 (Json (VDict []))
    end.
Proof.
  intros EA Hb EV Hc EK (Hu & Hl & Ha & Hr & He) ED.
  apply body_items_returns in Hb.
  pose proof (check_keeps_store a username acct (sanitized a kvs) w) as Hs.
  unfold add_contact, add_contact_try, bindP, lift, getitem.
  rewrite EA, Hb, EV, Hc.
  destruct (_check_contact_allowed a username acct (sanitized a kvs) w)
    as [r w1]. cbn [fst snd] in EK, Hs. subst r.
  rewrite Hl, Ha, Hr, He. unfold contacts_db_add_contact.
  rewrite Hs, <- Hu.
  replace {| c_username := c_username c; c_label := c_label c;
             c_account_num := c_account_num c;
             c_routing_num := c_routing_num c;
             c_is_external := c_is_external c |} with c by now destruct c.
  rewrite ED. destruct err; reflexivity.
Qed.

(** C6 (amended).  A POST either lets an exception escape, or answers
    exactly one of the five responses, and which one is decided by the
    first stage that stops it: 401 "authentication denied" when the token
    is rejected or names another user ([KeyError] escapes when the claims
    have no [user]); then [BadRequest] escapes when the body is not valid
    JSON and [AttributeError] when it is not a JSON object; then 400 with
    the validator's message ([TypeError] escapes when a field that reaches
    its pattern is neither a string nor null); then [KeyError] escapes
    when the claims have no [acct]; then 409 with the message of the
    business rule, or 500 "failed to add contact" when the query of the
    store fails; then 500 "failed to add contact" when the append fails,
    and 201 with the empty JSON object when it succeeds.  An answer meets
    this description exactly when it is the one the handler gives. *)
Theorem add_contact_outcomes {DB : Type} `{ContactsDb DB} (a : app)
    (username : string) (rq : request) (w : world DB) (o : outcome) :
  post_outcome a username rq w o <-> fst (add_contact a username rq w) = o.
Proof.
  unfold post_outcome. split.
  - intros [ (-> & claims & kvs & acct & c & db' & EA & Hb & EV & Hc & EK
               & Hco & ED)
           | [ (-> & [EA | EA])
           | [ (msg & -> & claims & kvs & EA & Hb & EV)
           | [ (msg & -> & claims & kvs & acct & EA & Hb & EV & Hc & EK)
           | [ (-> & claims & kvs & acct & EA & Hb & EV & Hc
                   & [ (e & EG & EK) | (EK & c & db' & e & Hco & ED) ])
           | (e & -> & [ (-> & EA)
                       | [ (-> & claims & EA & Hb)
                       | [ (-> & claims & v & EA & Hb & Hv)
                       | [ (-> & claims & kvs & EA & Hb & EV)
                       | (-> & claims & kvs & EA & Hb & EV & Hc) ]]]]) ]]]]].
    + exact (add_contact_inserts a username rq w claims kvs acct c db' None
               EA Hb EV Hc EK Hco ED).
    + now rewrite (add_contact_auth_failed _ _ _ _ _ EA).
    + now rewrite (add_contact_auth_failed _ _ _ _ _ EA).
    + now rewrite (add_contact_invalid _ _ _ _ _ _ _ EA Hb EV).
    + destruct (_check_contact_allowed a username acct (sanitized a kvs) w)
        as [r w1] eqn:EK'. cbn [fst] in EK. subst r.
      now rewrite (add_contact_check_failed _ _ _ _ _ _ _ _ _ EA Hb EV Hc EK').
    + destruct (_check_contact_allowed a username acct (sanitized a kvs) w)
        as [r w1] eqn:EK'. cbn [fst] in EK. subst r.
      now rewrite (add_contact_check_failed _ _ _ _ _ _ _ _ _ EA Hb EV Hc EK').
    + exact (add_contact_inserts a username rq w claims kvs acct c db'
               (Some e) EA Hb EV Hc EK Hco ED).
    + now rewrite (add_contact_auth_failed _ _ _ _ _ EA).
    + apply body_items_bad_request in Hb.
      now rewrite (add_contact_body_failed _ _ _ _ _ _ EA Hb).
    + assert (body_items rq = Raise AttributeError) as EI
        by (apply body_items_not_object; eauto).
      now rewrite (add_contact_body_failed _ _ _ _ _ _ EA EI).
    + now rewrite (add_contact_invalid _ _ _ _ _ _ _ EA Hb EV).
    + now rewrite (add_contact_no_acct _ _ _ _ _ _ EA Hb EV Hc).
  - intros <-.
    destruct (add_contact_runs a username rq w) as
      [ e EA He | EA | claims EA EI | claims EA EI | claims kvs msg EA EI EV
      | claims kvs EA EI EV | claims kvs EA EI EV EC
      | claims kvs acct EA EI EV EC EK | claims kvs acct e EA EI EV EC EG EK
      | claims kvs acct msg EA EI EV EC EK
      | claims kvs acct l an rn ie db' e EA EI EV EC EK Hl Ha Hr Hie c ED
      | claims kvs acct l an rn ie db' EA EI EV EC EK Hl Ha Hr Hie c ED ];
      cbn [fst]; try apply body_items_returns in EI.
    + right. left. split; [reflexivity|].
      destruct He as [ -> | -> ]; auto.
    + do 5 right. exists (KeyError "user"). auto.
    + do 5 right. exists BadRequest. split; [reflexivity|].
      right. left. split; [reflexivity|].
      apply body_items_bad_request in EI. eauto.
    + do 5 right. exists AttributeError. split; [reflexivity|].
      right. right. left. split; [reflexivity|].
      apply body_items_not_object in EI as (v & Hb & Hv). eauto.
    + right. right. left. exists msg. split; [reflexivity|]. eauto.
    + do 5 right. exists TypeError. split; [reflexivity|].
      do 3 right. left. split; [reflexivity|].
      exists claims, kvs. auto.
    + do 5 right. exists (KeyError "acct"). split; [reflexivity|].
      do 4 right. split; [reflexivity|].
      exists claims, kvs. auto.
    + do 3 right. left. exists "may not add yourself to contacts".
      split; [reflexivity|]. exists claims, kvs, acct. rewrite EK. auto.
    + do 4 right. left. split; [reflexivity|].
      exists claims, kvs, acct. rewrite EK. cbn [fst].
      repeat (split; [assumption|]). left. eauto.
    + do 3 right. left. exists msg.
      split; [reflexivity|]. exists claims, kvs, acct. rewrite EK. auto.
    + do 4 right. left. split; [reflexivity|].
      exists claims, kvs, acct. rewrite EK. cbn [fst].
      repeat (split; [assumption|]). right. split; [reflexivity|].
      exists c, db', e. repeat split; auto.
    + left. split; [reflexivity|].
      exists claims, kvs, acct, c, db'. rewrite EK.
      repeat split; auto.
Qed.

(** C6 as stated fails: a POST whose body is a JSON array is answered by
    none of the five responses, [AttributeError] escapes the handler. *)
Lemma array_body_counterexample :
  let r := add_contact sample_app "alice" (post "alice.jwt" (VList []))
             (fresh empty_db) in
  fst r = Unhandled AttributeError
  /\ forall status b, fst r <> Response status b.
Proof.
  cbv zeta. split; [reflexivity|]. intros status b. vm_compute. discriminate.
Qed.

(** ** Reading the contacts *)

(** X1.  A GET answers 200 with the contacts the store returns for the
    user of the path, as they are, when the token verifies, names that
    user and the query succeeds; 500 "failed to retrieve contacts list"
    when the query fails; 401 "authentication denied" when the token is
    rejected or names another user; and lets [KeyError] escape when the
    claims have no [user].  It queries the store at most once, only after
    the identity check, and never looks at the body. *)
Theorem get_contacts_outcomes {DB : Type} `{ContactsDb DB} (a : app)
    (username : string) (rq : request) (w : world DB) :
  let r := get_contacts a username rq w in
  let auth := authenticate a username rq in
  ((exists claims cs,
       auth = Return claims
       /\ db_get_contacts (store w) username = inr cs
       /\ r = (Response 200 (JsonContacts cs),
               after w (store w) [CallGet username]))
   \/ (exists claims e,
         auth = Return claims
         /\ db_get_contacts (store w) username = inl e
         /\ r = (Response 500 (Text "failed to retrieve contacts list"),
                 after w (store w) [CallGet username]))
   \/ ((auth = Raise InvalidTokenError \/ auth = Raise PermissionError)
       /\ r = (Response 401 (Text "authentication denied"), w))
   \/ (auth = Raise (KeyError "user")
       /\ r = (Unhandled (KeyError "user"), w)))
  /\ (forall payload,
        get_contacts a username
          {| authorization := authorization rq; get_json := payload |} w
        = r).
Proof.
  cbv zeta. split.
  - rewrite get_contacts_unfold.
    destruct (authenticate a username rq) as [claims|e] eqn:EA.
    + destruct (db_get_contacts (store w) username) as [e|cs] eqn:EG.
      * right. left. eauto.
      * left. eauto.
    + destruct (authenticate_raises _ _ _ _ EA) as [ -> | [ -> | -> ] ];
        cbn [get_contacts_except].
      * right. right. left. auto.
      * right. right. left. auto.
      * right. right. right. auto.
  - intros payload. rewrite !get_contacts_unfold. reflexivity.
Qed.

(** ** Who is let in *)

Lemma py_eq_str (s : string) (v : pyval) :
  py_eq (VStr s) v = true <-> v = VStr s.
Proof.
  split.
  - destruct v; cbn; try discriminate.
    intros E. apply String.eqb_eq in E. now subst.
  - intros ->. cbn. apply String.eqb_refl.
Qed.

(** X2.  The identity check lets a request through exactly when the token
    verifies and its [user] claim is a string equal, character for
    character, to the [username] of the path; a [user] claim of any other
    type never matches. *)
Theorem authenticate_accepts_iff (a : app) (username : string) (rq : request)
    (claims : dict) :
  authenticate a username rq = Return claims
  <-> jwt_decode a (bearer_token (authorization rq)) = Some claims
      /\ dict_get claims "user" = Some (VStr username).
Proof.
  split.
  - intros E. apply authenticate_returns in E as (Hj & user & Hu & Hp).
    apply py_eq_str in Hp. subst user. auto.
  - intros [Hj Hu]. unfold authenticate, getitem.
    rewrite Hj. cbn [bind]. rewrite Hu. cbn [bind py_eq].
    rewrite String.eqb_refl. reflexivity.
Qed.

(** X3.  GET and POST deny the same requests: for a path and a header,
    one answers 401 "authentication denied" exactly when the other does,
    whatever the body and the store. *)
Theorem same_denials {DB : Type} `{ContactsDb DB} (a : app)
    (username : string) (rq : request) (w : world DB) :
  fst (get_contacts a username rq w)
    = Response 401 (Text "authentication denied")
  <-> fst (add_contact a username rq w)
      = Response 401 (Text "authentication denied").
Proof.
  rewrite get_contacts_unfold.
  destruct (add_contact_runs a username rq w) as
    [ e EA He | EA | claims EA EI | claims EA EI | claims kvs msg EA EI EV
    | claims kvs EA EI EV | claims kvs EA EI EV EC
    | claims kvs acct EA EI EV EC EK | claims kvs acct e EA EI EV EC EG EK
    | claims kvs acct msg EA EI EV EC EK
    | claims kvs acct l an rn ie db' e EA EI EV EC EK Hl Ha Hr Hie c ED
    | claims kvs acct l an rn ie db' EA EI EV EC EK Hl Ha Hr Hie c ED ];
    rewrite EA; cbn [fst];
    try (destruct (db_get_contacts (store w) username); cbn [fst];
         split; discriminate).
  destruct He as [ -> | -> ]; split; reflexivity.
Qed.

(** ** Calls to the store *)

(** X4.  A POST answered 401 or 400 has made no call to the store at all;
    one answered 409 has made at most the query of the user's contacts; a
    GET answered 401 has made none. *)
Theorem rejected_before_the_store {DB : Type} `{ContactsDb DB} (a : app)
    (username : string) (rq : request) (w : world DB) :
  (forall b,
      fst (add_contact a username rq w) = Response 401 b
      \/ fst (add_contact a username rq w) = Response 400 b ->
      snd (add_contact a username rq w) = w)
  /\ (forall b,
        fst (add_contact a username rq w) = Response 409 b ->
        snd (add_contact a username rq w) = w
        \/ snd (add_contact a username rq w)
           = after w (store w) [CallGet username])
  /\ (forall b,
        fst (get_contacts a username rq w) = Response 401 b ->
        snd (get_contacts a username rq w) = w).
Proof.
  split; [|split].
  - intros b Hb.
    destruct (add_contact_effect a username rq w)
      as [[Ew _] | [[_ Ho] | (claims & kvs & c & db0 & err & _ & _ & _ & _
                               & _ & _ & Ho)]].
    + exact Ew.
    + destruct Ho as [Ho | [msg Ho]]; rewrite Ho in Hb;
        destruct Hb; discriminate.
    + rewrite Ho in Hb. destruct err, Hb; discriminate.
  - intros b Hb.
    destruct (add_contact_effect a username rq w)
      as [[Ew _] | [[Ew _] | (claims & kvs & c & db0 & err & _ & _ & _ & _
                               & _ & _ & Ho)]]; auto.
    rewrite Ho in Hb. destruct err; discriminate.
  - intros b. rewrite get_contacts_unfold.
    destruct (authenticate a username rq) as [claims|e].
    + destruct (db_get_contacts (store w) username); discriminate.
    + intros _. reflexivity.
Qed.

(** ** What is inserted is new *)

Lemma check_each_passes (req : dict) (an rn l : pyval) (cs : list contact) :
  dict_get req "account_num" = Some an ->
  dict_get req "routing_num" = Some rn ->
  dict_get req "label" = Some l ->
  check_each cs req = Return tt ->
  forall c', In c' cs ->
    pair_match an rn c' = false /\ label_match l c' = false.
Proof.
  intros Ha Hr Hl E c' Hin.
  rewrite (check_each_rules req an rn l cs Ha Hr Hl) in E.
  destruct (find _ cs) as [c0|] eqn:Ef.
  - destruct (pair_match an rn c0); discriminate.
  - apply orb_false_iff. exact (find_none _ _ Ef c' Hin).
Qed.

(** X5.  Whenever a POST calls the store's append, the contact it hands
    over shares neither its (account_num, routing_num) pair nor its label
    with any contact the store returned for the user, and it is not the
    caller's own account at the local routing number. *)
Theorem inserted_contact_is_new {DB : Type} `{ContactsDb DB} (a : app)
    (username : string) (rq : request) (w : world DB) (l : list db_call)
    (c : contact) (cs : list contact) :
  calls (snd (add_contact a username rq w)) = (calls w ++ l)%list ->
  In (CallAdd c) l ->
  db_get_contacts (store w) username = inr cs ->
  (forall c', In c' cs ->
     pair_match (c_account_num c) (c_routing_num c) c' = false
     /\ label_match (c_label c) c' = false)
  /\ (forall claims acct,
        authenticate a username rq = Return claims ->
        dict_get claims "acct" = Some acct ->
        py_eq (c_account_num c) acct
        && py_eq (c_routing_num c) (of_optional (LOCAL_ROUTING a)) = false).
Proof.
  intros Hc Hin Hg. revert Hc.
  destruct (add_contact_runs a username rq w) as
    [ e EA He | EA | claims EA EI | claims EA EI | claims kvs msg EA EI EV
    | claims kvs EA EI EV | claims kvs EA EI EV EC
    | claims kvs acct EA EI EV EC EK | claims kvs acct e EA EI EV EC EG EK
    | claims kvs acct msg EA EI EV EC EK
    | claims kvs acct lb an rn ie db' e EA EI EV EC EK Hl Ha Hr Hie c0 ED
    | claims kvs acct lb an rn ie db' EA EI EV EC EK Hl Ha Hr Hie c0 ED ];
    cbn [snd after calls]; intros Hc;
    try (apply app_eq_self in Hc; subst l; contradiction);
    try (apply app_inv_head in Hc; subst l;
         destruct Hin as [Hin | []]; discriminate).
  all: apply app_inv_head in Hc; subst l;
    destruct Hin as [Hin | [Hin | []]]; [discriminate|];
    injection Hin as <-; subst c0; cbn [c_account_num c_routing_num c_label];
    rewrite (check_contact_allowed_unfold a username acct _ w _ _ Ha Hr)
      in EK;
    destruct (py_eq an acct && py_eq rn (of_optional (LOCAL_ROUTING a)))
      eqn:Es; [discriminate|];
    rewrite Hg in EK; injection EK as EK;
    (split;
     [ exact (check_each_passes _ _ _ _ cs Ha Hr Hl EK)
     | intros claims' acct' EA' EC'; rewrite EA in EA';
       injection EA' as <-; rewrite EC in EC'; injection EC' as <-;
       exact Es ]).
Qed.

Lemma inserted_contact_is_new_witness :
  pair_match (c_account_num dan) (c_routing_num dan) carol = false
  /\ label_match (c_label dan) carol = false.
Proof.
  exact (proj1 (inserted_contact_is_new sample_app "alice"
                  (post "alice.jwt" (VDict dan_body))
                  (fresh {| rows := [carol]; get_error := None;
                            add_error := None |})
                  [CallGet "alice"; CallAdd dan] dan [carol]
                  eq_refl (or_intror (or_introl eq_refl)) eq_refl)
           carol (or_introl eq_refl)).
Defined.

(** ** The body is read through four keys *)

Lemma validate_ext (lr : option string) (req req' : dict) :
  (forall k, In k fields -> dict_get req k = dict_get req' k) ->
  _validate_new_contact lr req = _validate_new_contact lr req'.
Proof.
  intros E.
  unfold _validate_new_contact, getitem, fields, dict_mem. cbn [existsb].
  rewrite (E "label"), (E "account_num"), (E "routing_num"),
    (E "is_external") by (cbn; auto 6).
  reflexivity.
Qed.

Lemma check_each_ext (req req' : dict) (cs : list contact) :
  (forall k, In k fields -> dict_get req k = dict_get req' k) ->
  check_each cs req = check_each cs req'.
Proof.
  intros E. induction cs as [|c cs IH]; [reflexivity|].
  cbn [check_each]. unfold getitem.
  rewrite (E "label"), (E "account_num"), (E "routing_num") by (cbn; auto 6).
  rewrite IH. reflexivity.
Qed.

Lemma check_contact_allowed_ext {DB : Type} `{ContactsDb DB} (a : app)
    (username : string) (acct : pyval) (req req' : dict) (w : world DB) :
  (forall k, In k fields -> dict_get req k = dict_get req' k) ->
  _check_contact_allowed a username acct req w
  = _check_contact_allowed a username acct req' w.
Proof.
  intros E.
  unfold _check_contact_allowed, bindP, lift, getitem,
    contacts_db_get_contacts.
  rewrite (E "account_num"), (E "routing_num") by (cbn; auto 6).
  destruct (_ ;; _) as [[]|e]; [|reflexivity].
  destruct (db_get_contacts (store w) username); [reflexivity|].
  rewrite (check_each_ext req req' _ E). reflexivity.
Qed.

(** X6.  A POST reads its JSON object through the keys [label],
    [account_num], [routing_num] and [is_external] only: two bodies that
    agree on these four get the same answer and the same effect on the
    store, whatever else they hold (a [username] or an [acct] of their
    own, for instance) and in whatever order. *)
Theorem add_contact_reads_four_fields {DB : Type} `{ContactsDb DB} (a : app)
    (username : string) (header : option string) (kvs kvs' : dict)
    (w : world DB) :
  (forall k, In k fields -> dict_get kvs k = dict_get kvs' k) ->
  add_contact a username
    {| authorization := header; get_json := Parsed (VDict kvs) |} w
  = add_contact a username
      {| authorization := header; get_json := Parsed (VDict kvs') |} w.
Proof.
  intros E.
  assert (forall k, In k fields ->
            dict_get (sanitized a kvs) k = dict_get (sanitized a kvs') k)
    as E'.
  { intros k Hk. rewrite !dict_get_sanitized, (E k Hk). reflexivity. }
  unfold add_contact, add_contact_try, bindP, lift.
  change (authenticate a username
            {| authorization := header; get_json := Parsed (VDict kvs') |})
    with (authenticate a username
            {| authorization := header; get_json := Parsed (VDict kvs) |}).
  destruct (authenticate a username _) as [claims|e]; [|reflexivity].
  unfold body_items. cbn [get_json read_json bind items].
  rewrite (validate_ext _ _ _ E').
  destruct (_validate_new_contact _ (sanitized a kvs')) as [[]|e];
    [|reflexivity].
  destruct (getitem claims "acct") as [acct|e]; [|reflexivity].
  rewrite (check_contact_allowed_ext a username acct _ _ w E').
  destruct (_check_contact_allowed a username acct (sanitized a kvs') w)
    as [[[]|e] w1]; [|reflexivity].
  unfold getitem.
  rewrite (E' "label"), (E' "account_num"), (E' "routing_num"),
    (E' "is_external") by (cbn; auto 6).
  reflexivity.
Qed.

Lemma add_contact_reads_four_fields_witness :
  add_contact sample_app "alice"
    {| authorization := Some "Bearer alice.jwt";
       get_json := Parsed (VDict (("username", VStr "mallory") :: bob)) |}
    (fresh empty_db)
  = add_contact sample_app "alice"
      {| authorization := Some "Bearer alice.jwt"; get_json := Parsed (VDict bob) |}
      (fresh empty_db).
Proof.
  apply (add_contact_reads_four_fields sample_app "alice"
           (Some "Bearer alice.jwt")
           (("username", VStr "mallory") :: bob) bob (fresh empty_db)).
  intros k [<- | [<- | [<- | [<- | []]]]]; reflexivity.
Defined.

(** ** The bodies of the answers *)

Lemma validate_messages (lr : option string) (req : dict) (msg : string) :
  _validate_new_contact lr req = Raise (UserWarning msg) ->
  In msg validation_messages.
Proof.
  unfold validation_messages.
  destruct (existsb (fun f => negb (dict_mem req f)) fields) eqn:Em.
  - rewrite (validate_missing lr req Em). intros E; inversion E. cbn; auto.
  - unfold fields, dict_mem in Em. cbn [existsb] in Em.
    destruct (dict_get req "label") as [l|] eqn:El; [|discriminate].
    destruct (dict_get req "account_num") as [an|] eqn:Ea; [|discriminate].
    destruct (dict_get req "routing_num") as [rn|] eqn:Er; [|discriminate].
    destruct (dict_get req "is_external") as [ie|] eqn:Ee; [|discriminate].
    rewrite (validate_unfold lr req l an rn ie El Ea Er Ee).
    destruct (none_or_no_match ACCOUNT_NUM_RE an) as [[|]|x] eqn:E1;
      cbn [bind raise_if].
    + intros E; inversion E. cbn; auto.
    + destruct (none_or_no_match ROUTING_NUM_RE rn) as [[|]|y] eqn:E2;
        cbn [bind raise_if].
      * intros E; inversion E. cbn; auto.
      * destruct (truthy ie && py_eq rn (of_optional lr));
          cbn [bind raise_if].
        -- intros E; inversion E. cbn; auto.
        -- destruct (none_or_no_match LABEL_RE l) as [[|]|z] eqn:E3;
             cbn [bind raise_if]; intros E; inversion E; subst.
           ++ cbn; auto.
           ++ apply none_or_no_match_raises in E3. discriminate.
      * intros E; inversion E; subst.
        apply none_or_no_match_raises in E2. discriminate.
    + intros E; inversion E; subst.
      apply none_or_no_match_raises in E1. discriminate.
Qed.

Lemma check_messages {DB : Type} `{ContactsDb DB} (a : app)
    (username : string) (acct : pyval) (req : dict) (w w' : world DB)
    (msg : string) :
  _validate_new_contact (LOCAL_ROUTING a) req = Return tt ->
  _check_contact_allowed a username acct req w = (Raise (ValueError msg), w') ->
  In msg conflict_messages.
Proof.
  intros EV EK. unfold conflict_messages.
  destruct (validate_returns _ _ EV)
    as (sl & sa & sr & ie & Hl & Ha & Hr & _).
  rewrite (check_contact_allowed_unfold a username acct req w _ _ Ha Hr)
    in EK.
  destruct (py_eq (VStr sa) acct
            && py_eq (VStr sr) (of_optional (LOCAL_ROUTING a))).
  { inversion EK. cbn; auto. }
  destruct (db_get_contacts (store w) username) as [e|cs]; [discriminate|].
  rewrite (check_each_rules req _ _ _ cs Ha Hr Hl) in EK.
  destruct (find _ cs) as [c0|]; [|discriminate].
  destruct (pair_match _ _ c0); inversion EK; cbn; auto.
Qed.

(** X7.  The answers of a POST carry fixed texts: the body of a 400 is one
    of the four messages of the validator, the body of a 409 one of the
    three messages of the business rules, the body of a 401 is
    "authentication denied", that of a 500 "failed to add contact", and
    that of a 201 the empty JSON object.  No text of the request, the token
    or the store reaches the body. *)
Theorem add_contact_bodies {DB : Type} `{ContactsDb DB} (a : app)
    (username : string) (rq : request) (w : world DB) (status : nat)
    (b : body) :
  fst (add_contact a username rq w) = Response status b ->
  (status = 201 /\ b = Json (VDict []))
  \/ (status = 401 /\ b = Text "authentication denied")
  \/ (status = 400 /\ exists msg, b = Text msg /\ In msg validation_messages)
  \/ (status = 409 /\ exists msg, b = Text msg /\ In msg conflict_messages)
  \/ (status = 500 /\ b = Text "failed to add contact").
Proof.
  destruct (add_contact_runs a username rq w) as
    [ e EA He | EA | claims EA EI | claims EA EI | claims kvs msg EA EI EV
    | claims kvs EA EI EV | claims kvs EA EI EV EC
    | claims kvs acct EA EI EV EC EK | claims kvs acct e EA EI EV EC EG EK
    | claims kvs acct msg EA EI EV EC EK
    | claims kvs acct lb an rn ie db' e EA EI EV EC EK Hl Ha Hr Hie c0 ED
    | claims kvs acct lb an rn ie db' EA EI EV EC EK Hl Ha Hr Hie c0 ED ];
    cbn [fst]; intros E; inversion E; subst.
  - right. left. auto.
  - right. right. left. split; [reflexivity|].
    exists msg. split; [reflexivity|]. exact (validate_messages _ _ _ EV).
  - do 3 right. left. split; [reflexivity|].
    eexists. split; [reflexivity|]. cbn; auto.
  - do 4 right. auto.
  - do 3 right. left. split; [reflexivity|].
    exists msg. split; [reflexivity|].
    exact (check_messages a username acct _ w _ msg EV EK).
  - do 4 right. auto.
  - left. auto.
Qed.

Lemma add_contact_bodies_witness :
  fst (add_contact sample_app "alice"
         (post "alice.jwt"
            (VDict [("account_num", VStr "0000000001");
                    ("routing_num", VStr "12");
                    ("label", VStr "Bob S"); ("is_external", VBool true)]))
         (fresh empty_db))
  = Response 400 (Text "invalid routing number")
  /\ In "invalid routing number" validation_messages.
Proof.
  split; [reflexivity|].
  destruct (add_contact_bodies sample_app "alice"
              (post "alice.jwt"
                 (VDict [("account_num", VStr "0000000001");
                         ("routing_num", VStr "12");
                         ("label", VStr "Bob S");
                         ("is_external", VBool true)]))
              (fresh empty_db) 400 (Text "invalid routing number") eq_refl)
    as [[E _] | [[E _] | [[_ (msg & Em & Hin)] | [[E _] | [E _]]]]];
    try discriminate E.
  injection Em as <-. exact Hin.
Defined.

(** ** An unset local routing number *)

(** X8.  When the environment does not set the local routing number, the
    rule on external accounts and the self-reference rule are both off: a
    record with a valid account number, routing number and label passes
    validation whatever its [is_external], and no POST is answered "may not
    add yourself to contacts". *)
Theorem unset_local_routing_disables_checks {DB : Type} `{ContactsDb DB}
    (a : app) (username : string) (rq : request) (w : world DB) :
  LOCAL_ROUTING a = None ->
  (forall req sl sa sr v,
      dict_get req "label" = Some (VStr sl) ->
      dict_get req "account_num" = Some (VStr sa) ->
      dict_get req "routing_num" = Some (VStr sr) ->
      dict_get req "is_external" = Some v ->
      match_items LABEL_RE 0 sl = true ->
      exactly_digits 10 sa = true ->
      exactly_digits 9 sr = true ->
      _validate_new_contact (LOCAL_ROUTING a) req = Return tt)
  /\ fst (add_contact a username rq w)
     <> Response 409 (Text "may not add yourself to contacts").
Proof.
  intros Hn. split.
  - intros req sl sa sr v Hl Ha Hr He Ml Ma Mr.
    rewrite (validate_unfold _ req _ _ _ _ Hl Ha Hr He), Hn.
    rewrite !none_or_no_match_str, match_account_num, match_routing_num,
      Ma, Mr, Ml.
    cbn [negb bind raise_if of_optional py_eq]. rewrite andb_false_r.
    reflexivity.
  - assert (forall claims kvs acct w' msg,
              _validate_new_contact (LOCAL_ROUTING a) (sanitized a kvs)
                = Return tt ->
              _check_contact_allowed a username acct (sanitized a kvs) w
                = (Raise (ValueError msg), w') ->
              authenticate a username rq = Return claims ->
              msg <> "may not add yourself to contacts") as Hno.
    { intros claims kvs acct w' msg EV EK _.
      destruct (validate_returns _ _ EV)
        as (sl & sa & sr & ie & Hl & Ha & Hr & _).
      rewrite (check_contact_allowed_unfold a username acct _ w _ _ Ha Hr),
        Hn in EK.
      cbn [of_optional py_eq] in EK. rewrite andb_false_r in EK.
      destruct (db_get_contacts (store w) username) as [e|cs];
        [discriminate|].
      rewrite (check_each_rules _ _ _ _ cs Ha Hr Hl) in EK.
      destruct (find _ cs) as [c0|]; [|discriminate].
      destruct (pair_match _ _ c0); inversion EK; discriminate. }
    destruct (add_contact_runs a username rq w) as
      [ e EA He | EA | claims EA EI | claims EA EI | claims kvs msg EA EI EV
      | claims kvs EA EI EV | claims kvs EA EI EV EC
      | claims kvs acct EA EI EV EC EK | claims kvs acct e EA EI EV EC EG EK
      | claims kvs acct msg EA EI EV EC EK
      | claims kvs acct lb an rn ie db' e EA EI EV EC EK Hl Ha Hr Hie c0 ED
      | claims kvs acct lb an rn ie db' EA EI EV EC EK Hl Ha Hr Hie c0 ED ];
      cbn [fst]; try discriminate.
    + exfalso. exact (Hno _ _ _ _ _ EV EK EA eq_refl).
    + intros E. injection E as ->.
      exact (Hno _ _ _ _ _ EV EK EA eq_refl).
Qed.

Lemma unset_local_routing_disables_checks_witness :
  fst (add_contact unconfigured_app "alice"
         (post "alice.jwt"
            (VDict [("account_num", VStr "1234567890");
                    ("routing_num", VStr "123456789");
                    ("label", VStr "Me"); ("is_external", VBool true)]))
         (fresh empty_db))
  = Response 201 (Json (VDict []))
  /\ _validate_new_contact None
       [("account_num", VStr "1234567890"); ("routing_num", VStr "123456789");
        ("label", VStr "Me"); ("is_external", VBool true)]
     = Return tt.
Proof.
  split; [reflexivity|].
  refine (proj1 (unset_local_routing_disables_checks unconfigured_app "alice"
                   (post "alice.jwt" (VDict [])) (fresh empty_db) eq_refl)
            [("account_num", VStr "1234567890");
             ("routing_num", VStr "123456789");
             ("label", VStr "Me"); ("is_external", VBool true)]
            "Me" "1234567890" "123456789" (VBool true)
            eq_refl eq_refl eq_refl eq_refl _ eq_refl eq_refl).
  vm_compute. reflexivity.
Defined.

(** ** What the validator's patterns accept *)

Lemma chomp_spec (s t : string) :
  chomp s = Some t <-> s = t ++ String LF "".
Proof.
  revert t. induction s as [|c s IH]; intros t.
  - split; [discriminate|]. destruct t; discriminate.
  - destruct s as [|c' s'].
    + cbn [chomp]. destruct (Ascii.eqb c LF) eqn:Ec.
      * apply Ascii.eqb_eq in Ec. subst c. split.
        -- intros E. injection E as <-. reflexivity.
        -- destruct t as [|x [|y t]]; cbn; intros E; inversion E; reflexivity.
      * split; [discriminate|].
        destruct t as [|x [|y t]]; cbn; intros E; inversion E; subst.
        rewrite Ascii.eqb_refl in Ec. discriminate.
    + rewrite chomp_cons. destruct (chomp (String c' s')) as [u|].
      * pose proof (proj1 (IH u) eq_refl) as Eu. split.
        -- intros E. injection E as <-. cbn. now rewrite Eu.
        -- destruct t as [|x t]; cbn; intros E; inversion E; subst.
           assert (Some u = Some t) as Et by now apply IH.
           now injection Et as ->.
      * split; [discriminate|].
        destruct t as [|x t]; cbn; intros E; inversion E; subst.
        assert (None = Some t) as Et by now apply IH.
        discriminate.
Qed.

Lemma label_ok_length (s : string) :
  label_ok s = true -> 1 <= String.length s <= 30.
Proof.
  destruct s as [|c s]; [discriminate|]. cbn [label_ok String.length].
  intros E. apply andb_true_iff in E as [E _].
  apply andb_true_iff in E as [_ E]. apply Nat.leb_le in E. lia.
Qed.

Lemma length_append (s t : string) :
  String.length (s ++ t) = String.length s + String.length t.
Proof.
  induction s as [|c s IH]; [reflexivity|]. cbn. now rewrite IH.
Qed.

(** X9.  What [re.match] accepts for the three patterns of the validator:
    an account number is exactly 10 digits and a routing number exactly 9,
    with nothing after them; a label is 1 to 30 characters, the first a
    letter or a digit and the others letters, digits or spaces, optionally
    followed by one newline, so an accepted label holds at most 31
    characters. *)
Theorem patterns_accept (s : string) :
  (re_match ACCOUNT_NUM_RE (VStr s) = Return true
   <-> exactly_digits 10 s = true)
  /\ (re_match ROUTING_NUM_RE (VStr s) = Return true
      <-> exactly_digits 9 s = true)
  /\ (re_match LABEL_RE (VStr s) = Return true
      <-> label_ok s = true
          \/ exists t, s = t ++ String LF "" /\ label_ok t = true)
  /\ (re_match LABEL_RE (VStr s) = Return true ->
      1 <= String.length s <= 31).
Proof.
  assert (forall b : bool, Return b = Return true <-> b = true) as Hr.
  { intros b. split; [intros E; now injection E | now intros ->]. }
  assert (match_items LABEL_RE 0 s = true
          <-> label_ok s = true
              \/ exists t, s = t ++ String LF "" /\ label_ok t = true) as Hl.
  { rewrite match_label, orb_true_iff. split.
    - intros [E | E]; [now left | right].
      destruct (chomp s) as [t|] eqn:Et; [|discriminate].
      apply chomp_spec in Et. eauto.
    - intros [E | (t & Et & E)]; [now left | right].
      apply chomp_spec in Et. now rewrite Et. }
  cbn [re_match].
  rewrite match_account_num, match_routing_num, !Hr.
  split; [tauto|]. split; [tauto|]. split; [exact Hl|].
  intros Hm. apply Hl in Hm as [E | (t & -> & E)];
    apply label_ok_length in E; [lia|].
  rewrite length_append. cbn. lia.
Qed.

(** ** The shape of the token *)

Lemma join_split (sep : ascii) (s : string) : join sep (split sep s) = s.
Proof.
  induction s as [|c s IH]; [reflexivity|].
  cbn [split]. destruct (Ascii.eqb c sep) eqn:Ec.
  - apply Ascii.eqb_eq in Ec. subst c.
    pose proof (split_not_nil sep s) as Hn.
    destruct (split sep s) as [|w ws]; [contradiction|].
    change (join sep ("" :: w :: ws)) with (String sep (join sep (w :: ws))).
    now rewrite IH.
  - destruct (split sep s) as [|w ws].
    + cbn in IH. now subst s.
    + destruct ws as [|w' ws]; cbn [join] in *; cbn; now rewrite IH.
Qed.

Lemma split_pieces (sep : ascii) (s : string) :
  Forall (fun w => string_forall (fun c => negb (Ascii.eqb c sep)) w = true)
         (split sep s).
Proof.
  induction s as [|c s IH]; [repeat constructor|].
  cbn [split]. destruct (Ascii.eqb c sep) eqn:Ec.
  - constructor; [reflexivity | exact IH].
  - destruct (split sep s) as [|w ws].
    + repeat constructor. cbn. now rewrite Ec.
    + inversion IH; subst. constructor; [|assumption].
      cbn. rewrite Ec. assumption.
Qed.

Lemma string_app_assoc (s t u : string) : (s ++ t) ++ u = s ++ (t ++ u).
Proof.
  induction s as [|c s IH]; [reflexivity|]. cbn. now rewrite IH.
Qed.

Lemma join_last (sep : ascii) (l : list string) :
  exists pre, join sep l = pre ++ last l "".
Proof.
  induction l as [|w l (pre & IH)]; [now exists ""|].
  destruct l as [|w' l].
  - now exists "".
  - change (join sep (w :: w' :: l))
      with (w ++ String sep (join sep (w' :: l))).
    change (last (w :: w' :: l) "") with (last (w' :: l) "").
    rewrite IH. exists (w ++ String sep pre).
    rewrite string_app_assoc. reflexivity.
Qed.

(** X10.  The token handed to [jwt.decode] never holds a space, and it is
    the end of the Authorization header: the header is some text followed
    by the token.  A header that ends with a space, or an empty one, gives
    the empty token. *)
Theorem bearer_token_is_space_free_suffix (auth_header : option string) :
  no_space (bearer_token auth_header) = true
  /\ (forall h, auth_header = Some h ->
        exists pre, h = pre ++ bearer_token auth_header)
  /\ (forall pre, bearer_token (Some (pre ++ " ")) = "").
Proof.
  assert (forall h, no_space (last (split " " h) "") = true) as Hs.
  { intros h. pose proof (split_pieces " " h) as Hp.
    pose proof (split_not_nil " " h) as Hn.
    induction Hp as [|w l Hw Hl IH]; [contradiction|].
    destruct l as [|w' l]; [exact Hw|].
    apply IH. discriminate. }
  split; [|split].
  - unfold bearer_token. destruct auth_header as [h|]; [|reflexivity].
    destruct (truthy (of_optional (Some h))); [apply Hs | reflexivity].
  - intros h ->. unfold bearer_token.
    destruct h as [|c h]; [now exists ""|].
    change (truthy (of_optional (Some (String c h)))) with true. cbv iota.
    destruct (join_last " " (split " " (String c h))) as (pre & E).
    rewrite join_split in E. now exists pre.
  - intros pre. exact (bearer_token_after_space pre "" eq_refl).
Qed.

Lemma bearer_token_is_space_free_suffix_witness :
  exists pre, "Basic  a b" = pre ++ bearer_token (Some "Basic  a b").
Proof.
  exact (proj1 (proj2 (bearer_token_is_space_free_suffix
                         (Some "Basic  a b"))) "Basic  a b" eq_refl).
Defined.

(** ** The persisted contact *)

Lemma persisted_contact_invariants_witness :
  exists c sl sa sr,
    calls (snd (add_contact sample_app "alice"
                  (post "alice.jwt" (VDict bob)) (fresh empty_db)))
      = (calls (fresh empty_db) ++ [CallGet "alice"; CallAdd c])%list
    /\ c_username c = "alice"
    /\ c_label c = VStr sl
    /\ c_account_num c = VStr sa
    /\ c_routing_num c = VStr sr
    /\ exactly_digits 10 sa = true
    /\ exactly_digits 9 sr = true
    /\ (truthy (c_is_external c) = true ->
        LOCAL_ROUTING sample_app <> Some sr)
    /\ (label_ok sl = true
        \/ exists t, chomp sl = Some t /\ label_ok t = true).
Proof.
  exact (persisted_contact_invariants sample_app "alice"
           (post "alice.jwt" (VDict bob)) (fresh empty_db) (Json (VDict []))
           eq_refl).
Defined.
